(** * MayaLiveLinkUI: a shallow embedding of Source/MayaLiveLinkUI.py

    The script is glue between three parties: the Python code of the
    file itself, the host application (Maya: [cmds], [OpenMaya],
    [OpenMayaMPx]) and the native Live Link plugin that registers the
    [LiveLink*] commands.  Only the first is under verification.

    - Every call into the host is recorded, with the arguments the
      source passes, as an [Event] of the [World]'s history.
    - What the host answers is not ours to define: a [Host] gives each
      answer as a function of the history so far.
    - Python exceptions are results ([Raise]); the history written
      before the exception stays written.

    What is assumed of the host:
    - the registration and deregistration of a command may raise, as
      the [try]/[except] around them in the source expects; the other
      host calls return;
    - a subject query answers a list of strings or [None], the endpoint
      queries answer a string and a list of strings, the connection
      status a text and a boolean;
    - the endpoints dialog ends by one of its two buttons;
    - [json.loads (json.dumps d)] is [d]. *)

From Stdlib Require Import ZArith QArith String Ascii List.
From stdpp Require Import base strings gmap list pretty.

Local Open Scope string_scope.
Local Open Scope list_scope.
Local Open Scope nat_scope.

(** ** Python strings

    Endpoint texts are modelled as ASCII strings.  [isspace] is
    [str.isspace] on that range: TAB..CR, FS..US and the blank. *)
Module PyStr.

Definition isspace (c : ascii) : bool :=
  let n := nat_of_ascii c in
  ((9 <=? n) && (n <=? 13)) || ((28 <=? n) && (n <=? 32)).

Definition is_empty (s : string) : bool :=
  match s with EmptyString => true | String _ _ => false end.

Fixpoint lstrip (s : string) : string :=
  match s with
  | EmptyString => EmptyString
  | String c s' => if isspace c then lstrip s' else s
  end.

Fixpoint rstrip (s : string) : string :=
  match s with
  | EmptyString => EmptyString
  | String c s' =>
      let r := rstrip s' in
      if isspace c && is_empty r then EmptyString else String c r
  end.

(** [s.strip()] *)
Definition strip (s : string) : string := lstrip (rstrip s).

(** [s.split(sep)] for a one-character separator: never the empty list. *)
Fixpoint split (sep : ascii) (s : string) : list string :=
  match s with
  | EmptyString => [EmptyString]
  | String c s' =>
      if Ascii.eqb c sep then EmptyString :: split sep s'
      else match split sep s' with
           | h :: t => String c h :: t
           | [] => [String c EmptyString]
           end
  end.

(** [sep.join(l)] *)
Definition join (sep : string) (l : list string) : string :=
  String.concat sep l.

(** [s.startswith(p)] *)
Definition startswith (s p : string) : bool := String.prefix p s.

(** [str(n)] for a non-negative integer. *)
Definition str (n : nat) : string := pretty n.

End PyStr.

(** ** Values passed to the host *)

(** The callables the script hands to the host as commands. *)
Inductive Callable : Type :=
| Callback_OnRemoveSubject (SubjectPath : string)
| CallbackWithArgs_LiveLinkChangeSubjectName (SubjectPath : string)
| CallbackWithArgs_LiveLinkChangeSubjectStreamType (SubjectPath : string)
| Method_AddSelection
| Method_ShowNetworkEndpointsDialog
| Closure_CreateUI (UnicastEndpoint : string) (StaticEndpoints : list string)
| Closure_OnCancel
| Closure_OnOk (UnicastTextField StaticTextField : string)
| Function_AfterPluginUnloadCallback
| Classmethod_Creator (cls_name : string).

(** The dictionary the endpoints dialog hands back, [{'unicast': ...,
    'static': [...]}]. *)
Record EndpointsDict : Type := {
  unicast : string;
  static : list string
}.

(** A Python string as the script builds it: a literal, or the JSON text
    [json.dumps(d)] of an endpoints dictionary.  JSON text is never the
    empty string and [json.loads] gives the dictionary back. *)
Inductive PyText : Type :=
| Literal (s : string)
| JsonDumps (d : EndpointsDict).

#[local] Set Warnings "-register-all".
Inductive Value : Type :=
| VBool (b : bool)
| VInt (n : Z)
| VFloat (q : Q)
| VStr (s : string)
| VText (t : PyText)
| VList (l : list Value)
| VTuple (l : list Value)
| VCallable (f : Callable)
| VConst (name : string).
#[local] Set Warnings "register-all".

(** One observable step of the script: a host call with its positional
    and keyword arguments, a [print], or a write to [sys.stderr]. *)
Inductive Event : Type :=
| Call (fn : string) (args : list Value) (kwargs : list (string * Value))
| Print (s : string)
| StderrWrite (s : string).

Definition History := list Event.

(** What the user does with the endpoints dialog. *)
Inductive DialogButton : Type := ButtonCancel | ButtonOk.

(** The answers of the host and of the native plugin, each as a function
    of the history up to and including the call that asks. *)
Record Host : Type := {
  window_exists : History -> string -> bool;
  ui_name : History -> string;
  LiveLinkSubjectNames : History -> option (list string);
  LiveLinkSubjectPaths : History -> option (list string);
  LiveLinkSubjectTypes : History -> option (list string);
  LiveLinkSubjectRoles : History -> option (list string);
  LiveLinkConnectionStatus : History -> string * bool;
  unicastEndpoint : History -> string;
  staticEndpoints : History -> list string;
  textField_text : History -> string -> string;
  dialog_button : History -> DialogButton;
  registerCommand_refused : History -> string -> bool;
  deregisterCommand_refused : History -> string -> bool;
  addStringArrayCallback_id : History -> Z
}.

(** ** The interpreter state and the monad of the script *)

Record World : Type := {
  history : History;
  AfterPluginUnloadCallbackId : option Z
}.

Inductive Exn : Type :=
| KeyError (key : string)
| ValueError
| TypeError
| NameError (name : string)
| RuntimeError.

Inductive Result (A : Type) : Type :=
| Ok (a : A)
| Raise (e : Exn).
Arguments Ok {A} a.
Arguments Raise {A} e.

(** Code that touches neither the host nor the globals runs in [Result]. *)
#[global] Instance Result_ret : MRet Result := fun A a => Ok a.
#[global] Instance Result_bind : MBind Result := fun A B f r =>
  match r with
  | Ok a => f a
  | Raise e => Raise e
  end.

Definition M (A : Type) : Type := Host -> World -> Result A * World.

#[global] Instance M_ret : MRet M := fun A a _ w => (Ok a, w).
#[global] Instance M_bind : MBind M := fun A B f m host w =>
  match m host w with
  | (Ok a, w') => f a host w'
  | (Raise e, w') => (Raise e, w')
  end.

Definition raise {A} (e : Exn) : M A := fun _ w => (Raise e, w).

(** [try: body / except Exception: handler] *)
Definition try_except {A} (body : M A) (handler : Exn -> M A) : M A :=
  fun host w =>
    match body host w with
    | (Ok a, w') => (Ok a, w')
    | (Raise e, w') => handler e host w'
    end.

(** The world after more events. *)
Definition log (w : World) (evs : list Event) : World :=
  {| history := history w ++ evs;
     AfterPluginUnloadCallbackId := AfterPluginUnloadCallbackId w |}.

Definition emit (e : Event) : M unit := fun _ w => (Ok tt, log w [e]).

(** Read one of the host's answers at the current history. *)
Definition answer {A} (f : Host -> History -> A) : M A := fun host w =>
  (Ok (f host (history w)), w).

(** A host call whose result the script uses. *)
Definition call {A} (fn : string) (args : list Value)
    (kwargs : list (string * Value)) (f : Host -> History -> A) : M A :=
  emit (Call fn args kwargs) ;; answer f.

(** A host call made for its effect. *)
Definition call_ (fn : string) (args : list Value)
    (kwargs : list (string * Value)) : M unit :=
  emit (Call fn args kwargs).

Definition get_AfterPluginUnloadCallbackId : M (option Z) := fun _ w =>
  (Ok (AfterPluginUnloadCallbackId w), w).

Definition set_AfterPluginUnloadCallbackId (v : option Z) : M unit := fun _ w =>
  (Ok tt, {| history := history w; AfterPluginUnloadCallbackId := v |}).

(** [for x in l: body x] *)
Fixpoint for_each {A} (l : list A) (body : A -> M unit) : M unit :=
  match l with
  | [] => mret tt
  | x :: l' => body x ;; for_each l' body
  end.

(** [if b: body] *)
Definition when (b : bool) (body : M unit) : M unit :=
  if b then body else mret tt.

(** [d[k]] on a dictionary with string keys. *)
Definition getitem {V} (d : gmap string V) (k : string) : M V :=
  match d !! k with
  | Some v => mret v
  | None => raise (KeyError k)
  end.

(** [l.index(x)]: position of the first occurrence, 0-based. *)
Fixpoint index_of (x : string) (l : list string) : option nat :=
  match l with
  | [] => None
  | y :: l' => if String.eqb y x then Some 0 else S <$> index_of x l'
  end.

Definition list_index (l : list string) (x : string) : M nat :=
  match index_of x l with
  | Some i => mret i
  | None => raise ValueError
  end.

(** [iter(x)] on the result of a host query that is a list or [None]. *)
Definition iter {A} (x : option (list A)) : M (list A) :=
  match x with
  | Some l => mret l
  | None => raise TypeError
  end.

(** [zip(a, b, c, d)] on lists. *)
Fixpoint zip4 {A B C D} (a : list A) (b : list B) (c : list C) (d : list D)
    : list (A * B * C * D) :=
  match a, b, c, d with
  | x :: a', y :: b', z :: c', t :: d' => (x, y, z, t) :: zip4 a' b' c' d'
  | _, _, _, _ => []
  end.

(** Truth value of a string. *)
Definition truthy (t : PyText) : bool :=
  match t with
  | Literal s => negb (PyStr.is_empty s)
  | JsonDumps _ => true
  end.

(** [json.loads(t)].  The only literal the script produces is the empty
    one, which is not JSON. *)
Definition json_loads (t : PyText) : M EndpointsDict :=
  match t with
  | JsonDumps d => mret d
  | Literal _ => raise ValueError
  end.

(** ** The script *)

Definition StreamTypesPerSubjectType : gmap string (list string) :=
  list_to_map [
    ("Prop",      ["Root Only"; "Full Hierarchy"]);
    ("Character", ["Root Only"; "Full Hierarchy"]);
    ("Camera",    ["Root Only"; "Full Hierarchy"; "Camera"]);
    ("Light",     ["Root Only"; "Full Hierarchy"; "Light"])
  ].

(** Class attributes of [MayaLiveLinkUI]. *)
Definition WindowName : string := "MayaLiveLinkUI".
Definition Title : string := "Maya Live Link UI".
Definition WindowSize : Z * Z := (500, 300)%Z.

(** [cmds.window(name, exists=True)] *)
Definition window_query (name : string) : Event :=
  Call "cmds.window" [VStr name] [("exists", VBool true)].

Definition cmds_window_exists (name : string) : M bool :=
  emit (window_query name) ;;
  answer (fun host h => window_exists host h name).

Definition CreateSubjectTable : M unit :=
  window ← cmds_window_exists WindowName;
  if negb window then mret tt else
  call_ "cmds.rowColumnLayout" [VStr "SubjectLayout"]
    [("numberOfColumns", VInt 5);
     ("columnWidth", VList [VTuple [VInt 1; VInt 20]; VTuple [VInt 2; VInt 80];
                            VTuple [VInt 3; VInt 100]; VTuple [VInt 4; VInt 180];
                            VTuple [VInt 5; VInt 120]]);
     ("columnOffset", VList [VTuple [VInt 1; VStr "right"; VInt 5];
                             VTuple [VInt 2; VStr "right"; VInt 10];
                             VTuple [VInt 4; VStr "left"; VInt 10]]);
     ("parent", VStr "SubjectWrapperLayout")] ;;
  call_ "cmds.text" [] [("label", VStr "")] ;;
  call_ "cmds.text" []
    [("label", VStr "Subject Type"); ("font", VStr "boldLabelFont");
     ("align", VStr "left")] ;;
  call_ "cmds.text" []
    [("label", VStr "Subject Name"); ("font", VStr "boldLabelFont");
     ("align", VStr "left")] ;;
  call_ "cmds.text" []
    [("label", VStr "DAG Path"); ("font", VStr "boldLabelFont");
     ("align", VStr "left")] ;;
  call_ "cmds.text" []
    [("label", VStr "Stream Type"); ("font", VStr "boldLabelFont");
     ("align", VStr "left")] ;;
  call_ "cmds.rowColumnLayout" [VStr "SubjectLayout"]
    [("edit", VBool true);
     ("rowOffset", VTuple [VInt 1; VStr "bottom"; VInt 10])].

(** The name of the column layout of row [RowCounter]. *)
Definition LayoutName (RowCounter : nat) : string :=
  "ColumnLayoutRow_" +:+ PyStr.str RowCounter.

(** The body of the loop of [PopulateSubjects], up to the increment of
    [RowCounter]. *)
Definition SubjectRow (RowCounter : nat)
    (SubjectName SubjectPath SubjectType SubjectRole : string) : M unit :=
  call_ "cmds.button" []
    [("label", VStr "-"); ("height", VInt 21);
     ("command", VCallable (Callback_OnRemoveSubject SubjectPath));
     ("parent", VStr "SubjectLayout")] ;;
  call_ "cmds.text" []
    [("label", VStr SubjectType); ("height", VInt 21); ("align", VStr "left");
     ("parent", VStr "SubjectLayout")] ;;
  call_ "cmds.textField" []
    [("text", VStr SubjectName); ("height", VInt 21);
     ("changeCommand",
      VCallable (CallbackWithArgs_LiveLinkChangeSubjectName SubjectPath));
     ("parent", VStr "SubjectLayout")] ;;
  call_ "cmds.text" []
    [("label", VStr SubjectPath); ("align", VStr "left"); ("height", VInt 21);
     ("parent", VStr "SubjectLayout")] ;;
  call_ "cmds.columnLayout" [VStr (LayoutName RowCounter)]
    [("parent", VStr "SubjectLayout")] ;;
  call_ "cmds.optionMenu" [VStr "SubjectTypeMenu"]
    [("parent", VStr (LayoutName RowCounter)); ("height", VInt 21);
     ("changeCommand",
      VCallable (CallbackWithArgs_LiveLinkChangeSubjectStreamType SubjectPath))] ;;
  StreamTypes ← getitem StreamTypesPerSubjectType SubjectType;
  for_each StreamTypes (fun StreamType =>
    call_ "cmds.menuItem" [] [("label", VStr StreamType)]) ;;
  StreamTypes' ← getitem StreamTypesPerSubjectType SubjectType;
  i ← list_index StreamTypes' SubjectRole;
  let StreamTypeIndex := i + 1 in
  call_ "cmds.optionMenu" [VStr "SubjectTypeMenu"]
    [("edit", VBool true); ("select", VInt (Z.of_nat StreamTypeIndex))].

(** The [for ... in zip(...)] loop with its counter. *)
Fixpoint SubjectRows (RowCounter : nat)
    (rows : list (string * string * string * string)) : M unit :=
  match rows with
  | [] => mret tt
  | (SubjectName, SubjectPath, SubjectType, SubjectRole) :: rows' =>
      SubjectRow RowCounter SubjectName SubjectPath SubjectType SubjectRole ;;
      SubjectRows (RowCounter + 1) rows'
  end.

Definition PopulateSubjects : M unit :=
  SubjectNames ← call "cmds.LiveLinkSubjectNames" [] [] LiveLinkSubjectNames;
  SubjectPaths ← call "cmds.LiveLinkSubjectPaths" [] [] LiveLinkSubjectPaths;
  SubjectTypes ← call "cmds.LiveLinkSubjectTypes" [] [] LiveLinkSubjectTypes;
  SubjectRoles ← call "cmds.LiveLinkSubjectRoles" [] [] LiveLinkSubjectRoles;
  match SubjectPaths with
  | None => mret tt
  | Some _ =>
      names ← iter SubjectNames;
      paths ← iter SubjectPaths;
      types ← iter SubjectTypes;
      roles ← iter SubjectRoles;
      SubjectRows 0 (zip4 names paths types roles)
  end.

Definition ClearSubjects : M unit :=
  window ← cmds_window_exists WindowName;
  when window (call_ "cmds.deleteUI" [VStr "SubjectLayout"] []).

Definition RefreshSubjects : M unit :=
  window ← cmds_window_exists WindowName;
  when window (
    call_ "cmds.deleteUI" [VStr "SubjectLayout"] [] ;;
    CreateSubjectTable ;;
    PopulateSubjects).

Definition OnRemoveSubject (SubjectPath : string) : M unit :=
  call_ "cmds.LiveLinkRemoveSubject" [VStr SubjectPath] [] ;;
  RefreshSubjects.

Definition ConnectionActiveColour : list Q := [71#100; 9#10; 1#10]%Q.
Definition ConnectionInactiveColour : list Q := [1#1; 4#10; 4#10]%Q.
Definition ConnectionColourMap (ConnectedState : bool) : list Q :=
  if ConnectedState then ConnectionActiveColour else ConnectionInactiveColour.

(** ** Classes and the command registry of the module *)

(** A class is known by its name and its direct bases. *)
#[local] Set Warnings "-register-all".
Inductive Class : Type :=
| MkClass (cls_name : string) (cls_bases : list Class).
#[local] Set Warnings "register-all".

Definition __name__ (c : Class) : string :=
  match c with MkClass n _ => n end.

Definition __bases__ (c : Class) : list Class :=
  match c with MkClass _ bs => bs end.

Fixpoint class_eqb (c d : Class) : bool :=
  match c, d with
  | MkClass n bs, MkClass m ds =>
      String.eqb n m &&
      (fix all2 (bs ds : list Class) : bool :=
         match bs, ds with
         | [], [] => true
         | b :: bs', d' :: ds' => class_eqb b d' && all2 bs' ds'
         | _, _ => false
         end) bs ds
  end.

(** The objects a module-level name can evaluate to. *)
Inductive PyObject : Type :=
| PyClass (c : Class)
| PyModule (name : string)
| PyFunction (name : string)
| PyDict
| PyList
| PyString (s : string)
| PyNone.

(** [inspect.isclass(o)] *)
Definition isclass (o : PyObject) : bool :=
  match o with PyClass _ => true | _ => false end.

(** [issubclass] between two classes: [c] is [d] or one of the bases of
    [c] is a subclass of [d]. *)
Fixpoint subclass_of (c d : Class) : bool :=
  class_eqb c d ||
  match c with
  | MkClass _ bs => existsb (fun b => subclass_of b d) bs
  end.

(** [issubclass(o, d)]: a [TypeError] when [o] is not a class. *)
Definition issubclass (o : PyObject) (d : Class) : Result bool :=
  match o with
  | PyClass c => Ok (subclass_of c d)
  | _ => Raise TypeError
  end.

(** [o != d] for a class [d]. *)
Definition ne_class (o : PyObject) (d : Class) : bool :=
  match o with
  | PyClass c => negb (class_eqb c d)
  | _ => true
  end.

(** [a and b] on truth values, [b] evaluated only when [a] holds. *)
Definition and_then (a : bool) (b : Result bool) : Result bool :=
  if a then b else Ok false.

Definition object : Class := MkClass "object" [].
Definition MPxCommand : Class := MkClass "MPxCommand" [object].
Definition LiveLinkCommand : Class := MkClass "LiveLinkCommand" [MPxCommand].
Definition MayaLiveLinkUI : Class := MkClass "MayaLiveLinkUI" [LiveLinkCommand].
Definition MayaLiveLinkRefreshUI : Class :=
  MkClass "MayaLiveLinkRefreshUI" [LiveLinkCommand].
Definition MayaLiveLinkRefreshConnectionUI : Class :=
  MkClass "MayaLiveLinkRefreshConnectionUI" [LiveLinkCommand].
(** The two classes imported from [pymel.core.windows]. *)
Definition Callback : Class := MkClass "Callback" [object].
Definition CallbackWithArgs : Class := MkClass "CallbackWithArgs" [Callback].

Definition IsLiveLinkCommand (InCls : PyObject) : Result bool :=
  and_then (isclass InCls)
    (sub ← issubclass InCls LiveLinkCommand;
     and_then sub (Ok (ne_class InCls LiveLinkCommand))).

(** [GetLiveLinkCommandsFromModule], for an [eval] that resolves names.
    The generator evaluates an item when the comprehension asks for it. *)
Fixpoint GetLiveLinkCommandsFromModule
    (eval : string -> Result PyObject) (ModuleItems : list string)
    : Result (list PyObject) :=
  match ModuleItems with
  | [] => Ok []
  | Item :: ModuleItems' =>
      Command ← eval Item;
      keep ← IsLiveLinkCommand Command;
      rest ← GetLiveLinkCommandsFromModule eval ModuleItems';
      Ok (if keep : bool then Command :: rest else rest)
  end.

(** The names bound in the module when line 315 runs, as [dir()] lists
    them (sorted), each with the object it is bound to.  The names the
    interpreter itself binds differ between versions; none of them is
    bound to a class. *)
Definition module_globals : list (string * PyObject) := [
  ("Callback", PyClass Callback);
  ("CallbackWithArgs", PyClass CallbackWithArgs);
  ("ClearSubjects", PyFunction "ClearSubjects");
  ("ConnectionActiveColour", PyList);
  ("ConnectionColourMap", PyDict);
  ("ConnectionInactiveColour", PyList);
  ("CreateSubjectTable", PyFunction "CreateSubjectTable");
  ("GetLiveLinkCommandsFromModule", PyFunction "GetLiveLinkCommandsFromModule");
  ("IsLiveLinkCommand", PyFunction "IsLiveLinkCommand");
  ("LiveLinkCommand", PyClass LiveLinkCommand);
  ("MayaLiveLinkRefreshConnectionUI", PyClass MayaLiveLinkRefreshConnectionUI);
  ("MayaLiveLinkRefreshUI", PyClass MayaLiveLinkRefreshUI);
  ("MayaLiveLinkUI", PyClass MayaLiveLinkUI);
  ("OnRemoveSubject", PyFunction "OnRemoveSubject");
  ("OpenMaya", PyModule "maya.api.OpenMaya");
  ("OpenMayaMPx", PyModule "maya.OpenMayaMPx");
  ("PopulateSubjects", PyFunction "PopulateSubjects");
  ("RefreshSubjects", PyFunction "RefreshSubjects");
  ("StreamTypesPerSubjectType", PyDict);
  ("__builtins__", PyModule "builtins");
  ("__doc__", PyNone);
  ("__file__", PyString "MayaLiveLinkUI.py");
  ("__name__", PyString "MayaLiveLinkUI");
  ("__package__", PyNone);
  ("cmds", PyModule "maya.cmds");
  ("inspect", PyModule "inspect");
  ("json", PyModule "json");
  ("sys", PyModule "sys")
].

(** [dir()] at line 315. *)
Definition dir : list string := map fst module_globals.

(** [eval(Item)] for a name. *)
Definition eval_in (globals : list (string * PyObject)) (Item : string)
    : Result PyObject :=
  match find (fun kv => String.eqb (fst kv) Item) globals with
  | Some kv => Ok (snd kv)
  | None => Raise (NameError Item)
  end.

Definition as_class (o : PyObject) : option Class :=
  match o with PyClass c => Some c | _ => None end.

(** [Commands = GetLiveLinkCommandsFromModule(dir())].  Every element
    passed [IsLiveLinkCommand], so it is kept as the class it is. *)
Definition Commands : list Class :=
  match GetLiveLinkCommandsFromModule (eval_in module_globals) dir with
  | Ok l => omap as_class l
  | Raise _ => []
  end.

(** ** The commands and the endpoints dialog *)

(** [MayaLiveLinkUI.AddSelection] *)
Definition MayaLiveLinkUI_AddSelection : M unit :=
  call_ "cmds.LiveLinkAddSelection" [] [] ;;
  RefreshSubjects.

(** [_OnCancel] dismisses the dialog with the empty string. *)
Definition OnCancel : M PyText :=
  call_ "cmds.layoutDialog" [] [("dismiss", VStr "")] ;;
  mret (Literal "").

(** The endpoint [_OnOk] makes of the text of the unicast field. *)
Definition OnOk_unicast (text : string) : string :=
  let NewUnicastEndpoint := PyStr.strip text in
  if PyStr.is_empty NewUnicastEndpoint then "0.0.0.0:0"
  else NewUnicastEndpoint.

(** The endpoints [_OnOk] makes of the text of the static field:
    [text.strip() or []], split when it is not empty. *)
Definition OnOk_static (text : string) : list string :=
  let NewStaticEndpoints := PyStr.strip text in
  if PyStr.is_empty NewStaticEndpoints then []
  else map PyStr.strip (PyStr.split "," NewStaticEndpoints).

(** [_OnOk] reads the two fields and dismisses the dialog with the JSON
    text of the new settings. *)
Definition OnOk (UnicastTextField StaticTextField : string) : M PyText :=
  unicast_text ← call "cmds.textField" [VStr UnicastTextField]
                   [("q", VBool true); ("text", VBool true)]
                   (fun host h => textField_text host h UnicastTextField);
  let NewUnicastEndpoint := OnOk_unicast unicast_text in
  static_text ← call "cmds.textField" [VStr StaticTextField]
                  [("q", VBool true); ("text", VBool true)]
                  (fun host h => textField_text host h StaticTextField);
  let NewStaticEndpoints := OnOk_static static_text in
  let EndpointsDict :=
    {| unicast := NewUnicastEndpoint; static := NewStaticEndpoints |} in
  call_ "cmds.layoutDialog" [] [("dismiss", VText (JsonDumps EndpointsDict))] ;;
  mret (JsonDumps EndpointsDict).

(** [CreateUI] builds the dialog; it gives back the names of the two
    text fields, which [_OnOk] keeps in its closure. *)
Definition CreateUI (UnicastEndpoint : string) (StaticEndpoints : list string)
    : M (string * string) :=
  Form ← call "cmds.setParent" [] [("q", VBool true)] ui_name;
  DialogLayout ← call "cmds.columnLayout" [VStr "NetworkEndpointsDialogLayout"]
                   [("parent", VStr Form); ("columnWidth", VInt 400)] ui_name;
  EndpointsLayout ← call "cmds.rowColumnLayout" [VStr "EndpointsLayout"]
                      [("parent", VStr DialogLayout);
                       ("numberOfColumns", VInt 2); ("adjustableColumn", VInt 2);
                       ("columnWidth", VList [VTuple [VInt 1; VInt 100];
                                              VTuple [VInt 2; VInt 300]]);
                       ("columnOffset", VList [VTuple [VInt 1; VStr "left"; VInt 5];
                                               VTuple [VInt 2; VStr "left"; VInt 5]])]
                      ui_name;
  call_ "cmds.text" []
    [("parent", VStr EndpointsLayout); ("label", VStr "Unicast Endpoint:");
     ("font", VStr "boldLabelFont"); ("height", VInt 30); ("align", VStr "left")] ;;
  UnicastTextField ← call "cmds.textField" []
                       [("parent", VStr EndpointsLayout);
                        ("text", VStr UnicastEndpoint);
                        ("placeholderText", VStr "X.X.X.X:X")] ui_name;
  call_ "cmds.text" []
    [("parent", VStr EndpointsLayout); ("label", VStr "Static Endpoints:");
     ("font", VStr "boldLabelFont"); ("height", VInt 30); ("align", VStr "left")] ;;
  StaticTextField ← call "cmds.textField" []
                      [("parent", VStr EndpointsLayout);
                       ("text", VStr (PyStr.join "," StaticEndpoints));
                       ("placeholderText", VStr "X.X.X.X:X,Y.Y.Y.Y:Y,...")] ui_name;
  ButtonsLayout ← call "cmds.rowLayout" [VStr "ButtonsLayout"]
                    [("parent", VStr DialogLayout); ("numberOfColumns", VInt 2);
                     ("columnWidth", VList [VTuple [VInt 1; VInt 200];
                                            VTuple [VInt 2; VInt 200]])] ui_name;
  call_ "cmds.button" []
    [("parent", VStr ButtonsLayout); ("label", VStr "Cancel");
     ("width", VInt 200); ("height", VInt 30);
     ("command", VCallable Closure_OnCancel)] ;;
  call_ "cmds.button" []
    [("parent", VStr ButtonsLayout); ("label", VStr "Ok");
     ("width", VInt 200); ("height", VInt 30);
     ("command", VCallable (Closure_OnOk UnicastTextField StaticTextField))] ;;
  mret (UnicastTextField, StaticTextField).

(** [cmds.layoutDialog(ui=CreateUI, title=...)]: the host runs [CreateUI],
    the user presses one of the two buttons, and the text that button's
    command dismisses the dialog with is the result. *)
Definition layoutDialog (UnicastEndpoint : string)
    (StaticEndpoints : list string) : M PyText :=
  call_ "cmds.layoutDialog" []
    [("ui", VCallable (Closure_CreateUI UnicastEndpoint StaticEndpoints));
     ("title", VStr "Set Network Endpoints")] ;;
  fields ← CreateUI UnicastEndpoint StaticEndpoints;
  button ← answer dialog_button;
  match button with
  | ButtonCancel => OnCancel
  | ButtonOk => OnOk (fst fields) (snd fields)
  end.

(** [list(set(a) - set(b))] *)
Definition set_difference (a b : list string) : list string :=
  elements ((list_to_set a : gset string) ∖ list_to_set b).

Definition nonempty {A} (l : list A) : bool :=
  match l with [] => false | _ :: _ => true end.

(** The part of [ShowNetworkEndpointsDialog] after [json.loads]. *)
Definition ApplyEndpoints (UnicastEndpoint : string)
    (StaticEndpoints : list string) (EndpointsDict : EndpointsDict) : M unit :=
  let NewUnicastEndpoint := unicast EndpointsDict in
  let NewStaticEndpoints := static EndpointsDict in
  when (bool_decide (NewUnicastEndpoint ≠ UnicastEndpoint)) (
    call_ "cmds.LiveLinkMessagingSettings" [VStr NewUnicastEndpoint]
      [("unicastEndpoint", VBool true)]) ;;
  when (bool_decide (NewStaticEndpoints ≠ StaticEndpoints)) (
    let RemovedStaticEndpoints :=
      set_difference StaticEndpoints NewStaticEndpoints in
    let AddedStaticEndpoints :=
      set_difference NewStaticEndpoints StaticEndpoints in
    when (nonempty RemovedStaticEndpoints) (
      call_ "cmds.LiveLinkMessagingSettings" (map VStr RemovedStaticEndpoints)
        [("staticEndpoints", VBool true); ("removeEndpoint", VBool true)]) ;;
    when (nonempty AddedStaticEndpoints) (
      call_ "cmds.LiveLinkMessagingSettings" (map VStr AddedStaticEndpoints)
        [("staticEndpoints", VBool true); ("addEndpoint", VBool true)])).

(** [MayaLiveLinkUI.ShowNetworkEndpointsDialog] *)
Definition MayaLiveLinkUI_ShowNetworkEndpointsDialog : M unit :=
  UnicastEndpoint ← call "cmds.LiveLinkMessagingSettings" []
                      [("q", VBool true); ("unicastEndpoint", VBool true)]
                      unicastEndpoint;
  StaticEndpoints ← call "cmds.LiveLinkMessagingSettings" []
                      [("q", VBool true); ("staticEndpoints", VBool true)]
                      staticEndpoints;
  result ← layoutDialog UnicastEndpoint StaticEndpoints;
  when (truthy result) (
    EndpointsDict ← json_loads result;
    ApplyEndpoints UnicastEndpoint StaticEndpoints EndpointsDict).

(** [MayaLiveLinkUI.doIt] *)
Definition MayaLiveLinkUI_doIt : M unit :=
  window ← cmds_window_exists WindowName;
  when window (call_ "cmds.deleteUI" [VStr WindowName] []) ;;
  call_ "cmds.window" [VStr WindowName]
    [("title", VStr Title); ("menuBar", VBool true);
     ("widthHeight", VTuple [VInt (fst WindowSize); VInt (snd WindowSize)])] ;;
  status ← call "cmds.LiveLinkConnectionStatus" [] [] LiveLinkConnectionStatus;
  let ConnectionText := fst status in
  let ConnectedState := snd status in
  call_ "cmds.columnLayout" [VStr "mainColumn"]
    [("adjustableColumn", VBool true)] ;;
  call_ "cmds.rowLayout" [VStr "HeaderRow"]
    [("numberOfColumns", VInt 3); ("adjustableColumn", VInt 1);
     ("parent", VStr "mainColumn")] ;;
  call_ "cmds.text" []
    [("label", VStr "Unreal Engine Live Link"); ("align", VStr "left")] ;;
  call_ "cmds.text" [] [("label", VStr "Connection:")] ;;
  call_ "cmds.text" [VStr "ConnectionStatusUI"]
    [("label", VStr ConnectionText); ("align", VStr "center");
     ("backgroundColor", VList (map VFloat (ConnectionColourMap ConnectedState)));
     ("width", VInt 150)] ;;
  call_ "cmds.separator" []
    [("h", VInt 20); ("style", VStr "none"); ("parent", VStr "mainColumn")] ;;
  call_ "cmds.columnLayout" [VStr "SubjectWrapperLayout"]
    [("parent", VStr "mainColumn")] ;;
  CreateSubjectTable ;;
  PopulateSubjects ;;
  call_ "cmds.separator" []
    [("h", VInt 20); ("style", VStr "none"); ("parent", VStr "mainColumn")] ;;
  call_ "cmds.button" []
    [("label", VStr "Add Selection"); ("parent", VStr "mainColumn");
     ("command", VCallable Method_AddSelection)] ;;
  SettingsMenu ← call "cmds.menu" []
                   [("label", VStr "Settings"); ("parent", VStr WindowName)]
                   ui_name;
  call_ "cmds.menuItem" []
    [("label", VStr "Network Endpoints"); ("parent", VStr SettingsMenu);
     ("command", VCallable Method_ShowNetworkEndpointsDialog)] ;;
  call_ "cmds.showWindow" [VStr WindowName] [].

(** [MayaLiveLinkRefreshUI.doIt] *)
Definition MayaLiveLinkRefreshUI_doIt : M unit := RefreshSubjects.

(** [MayaLiveLinkRefreshConnectionUI.doIt] *)
Definition MayaLiveLinkRefreshConnectionUI_doIt : M unit :=
  window ← cmds_window_exists WindowName;
  when window (
    status ← call "cmds.LiveLinkConnectionStatus" [] [] LiveLinkConnectionStatus;
    let ConnectionText := fst status in
    let ConnectedState := snd status in
    call_ "cmds.text" [VStr "ConnectionStatusUI"]
      [("edit", VBool true); ("label", VStr ConnectionText);
       ("backgroundColor",
        VList (map VFloat (ConnectionColourMap ConnectedState)))]).

(** ** Plugin lifecycle *)

(** The loop returns at the first string with the prefix. *)
Fixpoint AfterPluginUnloadCallback (stringArray : list string)
    (clientData : option Value) : M unit :=
  match stringArray with
  | [] => mret tt
  | stringVal :: stringArray' =>
      if PyStr.startswith stringVal "MayaLiveLinkPlugin" then
        ClearSubjects ;;
        CreateSubjectTable
      else AfterPluginUnloadCallback stringArray' clientData
  end.

Definition tab : string := String "009" "".
Definition newline : string := String "010" "".

(** [mplugin.registerCommand(name, creator)]: raises when the host
    refuses the registration. *)
Definition registerCommand (name : string) : M unit :=
  refused ← call "mplugin.registerCommand"
              [VStr name; VCallable (Classmethod_Creator name)] []
              (fun host h => registerCommand_refused host h name);
  if refused : bool then raise RuntimeError else mret tt.

(** [mplugin.deregisterCommand(name)] *)
Definition deregisterCommand (name : string) : M unit :=
  refused ← call "mplugin.deregisterCommand" [VStr name] []
              (fun host h => deregisterCommand_refused host h name);
  if refused : bool then raise RuntimeError else mret tt.

(** The body of the loop of [initializePlugin]. *)
Definition register_one (Command : Class) : M unit :=
  try_except
    (emit (Print (tab +:+ "Registering Command '" +:+ __name__ Command +:+ "'")) ;;
     registerCommand (__name__ Command))
    (fun e =>
       emit (StderrWrite ("Failed to register command: " +:+ __name__ Command
                          +:+ newline)) ;;
       raise e).

(** The body of the loop of [uninitializePlugin]. *)
Definition deregister_one (Command : Class) : M unit :=
  try_except
    (deregisterCommand (__name__ Command))
    (fun _ =>
       emit (StderrWrite ("Failed to unregister command: " +:+ __name__ Command
                          +:+ newline))).

Definition initializePlugin (mobject : Value) : M unit :=
  call_ "OpenMayaMPx.MFnPlugin" [mobject] [] ;;
  emit (Print "LiveLink:") ;;
  for_each Commands register_one ;;
  id ← call "OpenMaya.MSceneMessage.addStringArrayCallback"
         [VConst "OpenMaya.MSceneMessage.kAfterPluginUnload";
          VCallable Function_AfterPluginUnloadCallback] []
         addStringArrayCallback_id;
  set_AfterPluginUnloadCallbackId (Some id).

Definition uninitializePlugin (mobject : Value) : M unit :=
  call_ "OpenMayaMPx.MFnPlugin" [mobject] [] ;;
  id ← get_AfterPluginUnloadCallbackId;
  match id with
  | Some i =>
      call_ "OpenMaya.MSceneMessage.removeCallback" [VInt i] [] ;;
      set_AfterPluginUnloadCallbackId None
  | None => mret tt
  end ;;
  for_each Commands deregister_one.

(** * Vocabulary of the properties *)

Definition textField_query (field : string) : Event :=
  Call "cmds.textField" [VStr field] [("q", VBool true); ("text", VBool true)].

(** The subclass relation: the reflexive and transitive closure of
    "is a direct base of". *)
Inductive Subclass : Class -> Class -> Prop :=
| Subclass_refl c : Subclass c c
| Subclass_base c b d : b ∈ __bases__ c -> Subclass b d -> Subclass c d.

(** What the claim calls a live link command: a class that is a subclass
    of LiveLinkCommand and is not LiveLinkCommand itself. *)
Definition LiveLinkCommandClass (o : PyObject) : Prop :=
  exists c, o = PyClass c /\ Subclass c LiveLinkCommand /\ c <> LiveLinkCommand.

(** [emits P m]: whatever the host answers, [m] only appends events, and
    all of them satisfy [P]. *)
Definition emits (P : Event -> Prop) {A} (m : M A) : Prop :=
  forall host w, exists evs,
    history (snd (m host w)) = history w ++ evs /\ Forall P evs.

(** Host calls to a given function. *)
Definition is_call_to (fn : string) (e : Event) : bool :=
  match e with
  | Call f _ _ => String.eqb f fn
  | _ => false
  end.

Definition calls_to (fn : string) (h : History) : History :=
  List.filter (is_call_to fn) h.

Definition no_call_to (fn : string) (e : Event) : Prop := is_call_to fn e = false.

(** The five cells of a row and its option menu, as [SubjectRow] asks
    the host for them. *)
Definition row_cells (RowCounter : nat) (SubjectName SubjectPath SubjectType : string)
    : list Event := [
  Call "cmds.button" []
    [("label", VStr "-"); ("height", VInt 21);
     ("command", VCallable (Callback_OnRemoveSubject SubjectPath));
     ("parent", VStr "SubjectLayout")];
  Call "cmds.text" []
    [("label", VStr SubjectType); ("height", VInt 21); ("align", VStr "left");
     ("parent", VStr "SubjectLayout")];
  Call "cmds.textField" []
    [("text", VStr SubjectName); ("height", VInt 21);
     ("changeCommand",
      VCallable (CallbackWithArgs_LiveLinkChangeSubjectName SubjectPath));
     ("parent", VStr "SubjectLayout")];
  Call "cmds.text" []
    [("label", VStr SubjectPath); ("align", VStr "left"); ("height", VInt 21);
     ("parent", VStr "SubjectLayout")];
  Call "cmds.columnLayout" [VStr (LayoutName RowCounter)]
    [("parent", VStr "SubjectLayout")];
  Call "cmds.optionMenu" [VStr "SubjectTypeMenu"]
    [("parent", VStr (LayoutName RowCounter)); ("height", VInt 21);
     ("changeCommand",
      VCallable (CallbackWithArgs_LiveLinkChangeSubjectStreamType SubjectPath))]
].

(** One menu item per stream type, in order. *)
Definition menu_items (StreamTypes : list string) : list Event :=
  map (fun StreamType => Call "cmds.menuItem" [] [("label", VStr StreamType)])
      StreamTypes.

(** Selecting the item at a 1-based index. *)
Definition menu_select (StreamTypeIndex : nat) : Event :=
  Call "cmds.optionMenu" [VStr "SubjectTypeMenu"]
    [("edit", VBool true); ("select", VInt (Z.of_nat StreamTypeIndex))].

(** The name of the column layout an event creates under SubjectLayout,
    if it creates one: the mark of a subject row. *)
Definition row_layout (e : Event) : option string :=
  match e with
  | Call fn [VStr name] [(key, VStr parent)] =>
      if String.eqb fn "cmds.columnLayout" && String.eqb key "parent"
         && String.eqb parent "SubjectLayout"
      then Some name else None
  | _ => None
  end.

(** The rows created in a history, by layout name, in order. *)
Definition created_rows (h : History) : list string := omap row_layout h.

(** A row the table knows how to show: its type is in the table and its
    role is a stream type of that type. *)
Definition valid_row (row : string * string * string * string) : Prop :=
  match row with
  | (_, _, SubjectType, SubjectRole) =>
      exists StreamTypes,
        StreamTypesPerSubjectType !! SubjectType = Some StreamTypes /\
        SubjectRole ∈ StreamTypes
  end.

Definition SubjectNames_query : Event := Call "cmds.LiveLinkSubjectNames" [] [].
Definition SubjectPaths_query : Event := Call "cmds.LiveLinkSubjectPaths" [] [].
Definition SubjectTypes_query : Event := Call "cmds.LiveLinkSubjectTypes" [] [].
Definition SubjectRoles_query : Event := Call "cmds.LiveLinkSubjectRoles" [] [].

(** Hosts to run the script against.  A scenario fixes what the host
    answers, whatever the history: whether the window exists, the
    subjects of the native plugin, the stored endpoints, the button the
    user presses and the texts of the two fields of the dialog (the
    unicast field is the one read first), and the command names the host
    refuses to register. *)
Record Scenario : Type := {
  sc_window : bool;
  sc_names : option (list string);
  sc_paths : option (list string);
  sc_types : option (list string);
  sc_roles : option (list string);
  sc_unicast : string;
  sc_static : list string;
  sc_button : DialogButton;
  sc_unicast_text : string;
  sc_static_text : string;
  sc_refused : string -> bool
}.

Definition is_textField_read (e : Event) : bool :=
  match e with
  | Call fn [VStr _] _ => String.eqb fn "cmds.textField"
  | _ => false
  end.

Definition host_of (sc : Scenario) : Host := {|
  window_exists := fun _ _ => sc_window sc;
  ui_name := fun h => "control" +:+ pretty (length h);
  LiveLinkSubjectNames := fun _ => sc_names sc;
  LiveLinkSubjectPaths := fun _ => sc_paths sc;
  LiveLinkSubjectTypes := fun _ => sc_types sc;
  LiveLinkSubjectRoles := fun _ => sc_roles sc;
  LiveLinkConnectionStatus := fun _ => ("Connected", true);
  unicastEndpoint := fun _ => sc_unicast sc;
  staticEndpoints := fun _ => sc_static sc;
  textField_text := fun h _ =>
    if length (List.filter is_textField_read h) =? 1 then sc_unicast_text sc
    else sc_static_text sc;
  dialog_button := fun _ => sc_button sc;
  registerCommand_refused := fun _ name => sc_refused sc name;
  deregisterCommand_refused := fun _ name => sc_refused sc name;
  addStringArrayCallback_id := fun h => Z.of_nat (length h)
|}.

(** No window, no subject, default endpoints, nothing refused. *)
Definition idle : Scenario := {|
  sc_window := false;
  sc_names := None; sc_paths := None; sc_types := None; sc_roles := None;
  sc_unicast := "0.0.0.0:0"; sc_static := [];
  sc_button := ButtonCancel;
  sc_unicast_text := ""; sc_static_text := "";
  sc_refused := fun _ => false
|}.

(** A host whose native plugin reports the given subjects. *)
Definition host_with_subjects
    (names paths types roles : option (list string)) : Host :=
  host_of {|
    sc_window := true;
    sc_names := names; sc_paths := paths; sc_types := types; sc_roles := roles;
    sc_unicast := sc_unicast idle; sc_static := sc_static idle;
    sc_button := sc_button idle;
    sc_unicast_text := sc_unicast_text idle;
    sc_static_text := sc_static_text idle;
    sc_refused := sc_refused idle
  |}.

(** The world of a freshly loaded script. *)
Definition initial_world : World :=
  {| history := []; AfterPluginUnloadCallbackId := None |}.

Definition is_host_call (e : Event) : bool :=
  match e with Call _ _ _ => true | _ => false end.

(** The host calls of a history, without what was printed. *)
Definition host_calls (h : History) : History := List.filter is_host_call h.

Definition register_call (Command : Class) : Event :=
  Call "mplugin.registerCommand"
    [VStr (__name__ Command); VCallable (Classmethod_Creator (__name__ Command))] [].

Definition deregister_call (Command : Class) : Event :=
  Call "mplugin.deregisterCommand" [VStr (__name__ Command)] [].

Definition subscribe_call : Event :=
  Call "OpenMaya.MSceneMessage.addStringArrayCallback"
    [VConst "OpenMaya.MSceneMessage.kAfterPluginUnload";
     VCallable Function_AfterPluginUnloadCallback] [].

Definition unsubscribe_call (id : Z) : Event :=
  Call "OpenMaya.MSceneMessage.removeCallback" [VInt id] [].

Definition MFnPlugin_call (mobject : Value) : Event :=
  Call "OpenMayaMPx.MFnPlugin" [mobject] [].

(** A host that refuses to register MayaLiveLinkRefreshUI. *)
Definition refusing_host : Host :=
  host_of {|
    sc_window := sc_window idle;
    sc_names := None; sc_paths := None; sc_types := None; sc_roles := None;
    sc_unicast := sc_unicast idle; sc_static := sc_static idle;
    sc_button := sc_button idle;
    sc_unicast_text := sc_unicast_text idle;
    sc_static_text := sc_static_text idle;
    sc_refused := fun name => String.eqb name "MayaLiveLinkRefreshUI"
  |}.

(** A call of LiveLinkMessagingSettings that is not a query. *)
Definition is_setter (e : Event) : bool :=
  match e with
  | Call fn _ kwargs =>
      String.eqb fn "cmds.LiveLinkMessagingSettings"
      && negb (existsb (fun kv => String.eqb (fst kv) "q") kwargs)
  | _ => false
  end.

Definition setters (h : History) : History := List.filter is_setter h.

Definition unicast_query : Event :=
  Call "cmds.LiveLinkMessagingSettings" []
    [("q", VBool true); ("unicastEndpoint", VBool true)].

Definition static_query : Event :=
  Call "cmds.LiveLinkMessagingSettings" []
    [("q", VBool true); ("staticEndpoints", VBool true)].

Definition set_unicast (endpoint : string) : Event :=
  Call "cmds.LiveLinkMessagingSettings" [VStr endpoint]
    [("unicastEndpoint", VBool true)].

Definition remove_endpoints (endpoints : list string) : Event :=
  Call "cmds.LiveLinkMessagingSettings" (map VStr endpoints)
    [("staticEndpoints", VBool true); ("removeEndpoint", VBool true)].

Definition add_endpoints (endpoints : list string) : Event :=
  Call "cmds.LiveLinkMessagingSettings" (map VStr endpoints)
    [("staticEndpoints", VBool true); ("addEndpoint", VBool true)].

(** The setter commands the claim announces for stored settings
    [(UnicastEndpoint, StaticEndpoints)], new settings [d] and
    enumerations [removed] and [added] of the two set differences. *)
Definition endpoint_setters (UnicastEndpoint : string) (d : EndpointsDict)
    (removed added : list string) : list Event :=
  (if decide (unicast d = UnicastEndpoint) then [] else [set_unicast (unicast d)])
  ++ match removed with [] => [] | _ :: _ => [remove_endpoints removed] end
  ++ match added with [] => [] | _ :: _ => [add_endpoints added] end.

(** A host on which the user types new endpoints and presses Ok. *)
Definition host_with_dialog (button : DialogButton)
    (unicast_text static_text : string) : Host :=
  host_of {|
    sc_window := true;
    sc_names := None; sc_paths := None; sc_types := None; sc_roles := None;
    sc_unicast := "0.0.0.0:0"; sc_static := ["10.0.0.1:6666"; "10.0.0.2:6666"];
    sc_button := button;
    sc_unicast_text := unicast_text;
    sc_static_text := static_text;
    sc_refused := sc_refused idle
  |}.

(** The user replaces the unicast endpoint and one of the two static
    endpoints, and presses Ok. *)
Definition confirming_host : Host :=
  host_with_dialog ButtonOk " 192.168.0.5:7000 " "10.0.0.2:6666, 10.0.0.3:6666".

Definition confirmed_settings : EndpointsDict :=
  {| unicast := "192.168.0.5:7000";
     static := ["10.0.0.2:6666"; "10.0.0.3:6666"] |}.

(** [s.count(c)] for a character. *)
Fixpoint count_char (c : ascii) (s : string) : nat :=
  match s with
  | EmptyString => 0
  | String d s' => (if Ascii.eqb d c then 1 else 0) + count_char c s'
  end.

(** An endpoint text as the dialog can show and read back unchanged:
    no surrounding whitespace and no comma. *)
Definition plain_endpoint (e : string) : Prop :=
  PyStr.strip e = e /\ count_char "," e = 0.

(** What [initializePlugin] writes on stderr for a refused registration. *)
Definition register_failure (Command : Class) : Event :=
  StderrWrite ("Failed to register command: " +:+ __name__ Command +:+ newline).

(** The exception a row raises when it is not a [valid_row]: the type is
    looked up first, the role second. *)
Definition row_error (SubjectType : string) : Exn :=
  match StreamTypesPerSubjectType !! SubjectType with
  | None => KeyError SubjectType
  | Some _ => ValueError
  end.

(** An edit of an option menu that selects an item. *)
Definition is_selection (e : Event) : bool :=
  match e with
  | Call fn _ kwargs =>
      String.eqb fn "cmds.optionMenu"
      && existsb (fun kv => String.eqb (fst kv) "select") kwargs
  | _ => false
  end.

Definition selections (h : History) : History := List.filter is_selection h.

(** A control created with the given parent. *)
Definition child_of (parent : string) (e : Event) : bool :=
  match e with
  | Call _ _ kwargs =>
      existsb (fun kv =>
                 String.eqb (fst kv) "parent"
                 && match snd kv with
                    | VStr p => String.eqb p parent
                    | _ => false
                    end) kwargs
  | _ => false
  end.

(** The cells put into the subject table. *)
Definition table_cells (h : History) : History :=
  List.filter (child_of "SubjectLayout") h.

(** An event that is a call to one of the given host functions, or no
    host call at all. *)
Definition uses (fns : list string) (e : Event) : bool :=
  match e with
  | Call f _ _ => existsb (String.eqb f) fns
  | _ => true
  end.

(** The host functions [PopulateSubjects] calls. *)
Definition PopulateSubjects_calls : list string :=
  ["cmds.LiveLinkSubjectNames"; "cmds.LiveLinkSubjectPaths";
   "cmds.LiveLinkSubjectTypes"; "cmds.LiveLinkSubjectRoles";
   "cmds.button"; "cmds.text"; "cmds.textField"; "cmds.columnLayout";
   "cmds.optionMenu"; "cmds.menuItem"].

(** The host functions [CreateSubjectTable] calls. *)
Definition CreateSubjectTable_calls : list string :=
  ["cmds.window"; "cmds.rowColumnLayout"; "cmds.text"].

(** A call of a command of the native plugin. *)
Definition is_native (e : Event) : bool :=
  match e with
  | Call f _ _ => String.prefix "cmds.LiveLink" f
  | _ => false
  end.

Definition showWindow_call : Event := Call "cmds.showWindow" [VStr WindowName] [].
Definition deleteWindow_call : Event := Call "cmds.deleteUI" [VStr WindowName] [].

(** The creation of the subject table (not an edit of it). *)
Definition table_created (e : Event) : bool :=
  match e with
  | Call fn [VStr name] kwargs =>
      String.eqb fn "cmds.rowColumnLayout" && String.eqb name "SubjectLayout"
      && existsb (fun kv => String.eqb (fst kv) "parent") kwargs
  | _ => false
  end.

(** The deletion of the subject table. *)
Definition table_deleted (e : Event) : bool :=
  match e with
  | Call fn [VStr name] _ =>
      String.eqb fn "cmds.deleteUI" && String.eqb name "SubjectLayout"
  | _ => false
  end.

Definition creations (h : History) : History := List.filter table_created h.
Definition deletions (h : History) : History := List.filter table_deleted h.

(** A computation that replaces the subject table or leaves it alone:
    it only appends events, with as many creations as deletions of the
    table, and at most one of each. *)
Definition keeps_one_table (m : M unit) (host : Host) (w : World) : Prop :=
  exists evs,
    history (snd (m host w)) = history w ++ evs /\
    length (creations evs) = length (deletions evs) /\
    length (creations evs) <= 1.

(** The deletion of the subject table, as [ClearSubjects] and
    [RefreshSubjects] ask for it. *)
Definition delete_table_call : Event :=
  Call "cmds.deleteUI" [VStr "SubjectLayout"] [].

(** The subject table and its header as the host is asked for them: the
    five-column layout SubjectLayout under SubjectWrapperLayout, an empty
    cell, the four column titles, and the offset under the header row. *)
Definition table_header : list Event := [
  Call "cmds.rowColumnLayout" [VStr "SubjectLayout"]
    [("numberOfColumns", VInt 5);
     ("columnWidth", VList [VTuple [VInt 1; VInt 20]; VTuple [VInt 2; VInt 80];
                            VTuple [VInt 3; VInt 100]; VTuple [VInt 4; VInt 180];
                            VTuple [VInt 5; VInt 120]]);
     ("columnOffset", VList [VTuple [VInt 1; VStr "right"; VInt 5];
                             VTuple [VInt 2; VStr "right"; VInt 10];
                             VTuple [VInt 4; VStr "left"; VInt 10]]);
     ("parent", VStr "SubjectWrapperLayout")];
  Call "cmds.text" [] [("label", VStr "")];
  Call "cmds.text" []
    [("label", VStr "Subject Type"); ("font", VStr "boldLabelFont");
     ("align", VStr "left")];
  Call "cmds.text" []
    [("label", VStr "Subject Name"); ("font", VStr "boldLabelFont");
     ("align", VStr "left")];
  Call "cmds.text" []
    [("label", VStr "DAG Path"); ("font", VStr "boldLabelFont");
     ("align", VStr "left")];
  Call "cmds.text" []
    [("label", VStr "Stream Type"); ("font", VStr "boldLabelFont");
     ("align", VStr "left")];
  Call "cmds.rowColumnLayout" [VStr "SubjectLayout"]
    [("edit", VBool true);
     ("rowOffset", VTuple [VInt 1; VStr "bottom"; VInt 10])]
].

(** The four queries that open [PopulateSubjects]. *)
Definition subject_queries : list Event :=
  [SubjectNames_query; SubjectPaths_query; SubjectTypes_query; SubjectRoles_query].

(** What a refresh of the subject table does before it populates the
    rows, the window existing: it checks the window, deletes the table,
    checks the window again and, the window still being there
    ([recreated]), creates the table and its header. *)
Definition refresh_events (recreated : bool) : list Event :=
  [window_query WindowName; delete_table_call; window_query WindowName]
  ++ (if recreated then table_header else []).

(** The creation of the window by [MayaLiveLinkUI.doIt]. *)
Definition createWindow_call : Event :=
  Call "cmds.window" [VStr WindowName]
    [("title", VStr Title); ("menuBar", VBool true);
     ("widthHeight", VTuple [VInt 500; VInt 300])].

(** * Properties *)

(** ** Stripping and splitting *)
Section StripSplit.
Import PyStr.

Lemma isspace_not_comma c : isspace c = true -> Ascii.eqb c "," = false.
Proof.
  intros Hc. destruct (Ascii.eqb_spec c ",") as [-> | _]; [discriminate | reflexivity].
Qed.

Lemma is_empty_true s : is_empty s = true <-> s = "".
Proof. destruct s; simpl; split; congruence. Qed.

Lemma split_cons_inv sep s : exists h t, split sep s = h :: t.
Proof.
  induction s as [| c s [h [t IH]]]; simpl; eauto.
  destruct (Ascii.eqb c sep); rewrite ?IH; eauto.
Qed.

Lemma rstrip_space c s :
  isspace c = true -> rstrip s = "" -> rstrip (String c s) = "".
Proof. intros Hc Hs. simpl. rewrite Hc, Hs. reflexivity. Qed.

(** A text of blanks splits into one field of blanks. *)
Lemma split_blank s :
  rstrip s = "" -> exists h, split "," s = [h] /\ rstrip h = "".
Proof.
  induction s as [| c s IH]; simpl; intros Hs; [eauto |].
  destruct (isspace c) eqn:Hc; simpl in Hs; [| discriminate].
  destruct (is_empty (rstrip s)) eqn:He; [| discriminate].
  apply is_empty_true in He. destruct (IH He) as [h [Hh Hr]].
  rewrite (isspace_not_comma _ Hc), Hh. exists (String c h). split; [reflexivity |].
  now apply rstrip_space.
Qed.

Lemma rstrip_cons_congr c h1 h2 :
  rstrip h1 = rstrip h2 -> rstrip (String c h1) = rstrip (String c h2).
Proof. intros H. simpl. now rewrite H. Qed.

Lemma split_rstrip s :
  map rstrip (split "," (rstrip s)) = map rstrip (split "," s).
Proof.
  induction s as [| c s IH]; [reflexivity |].
  cbn [rstrip].
  destruct (isspace c && is_empty (rstrip s)) eqn:Hb.
  - apply andb_true_iff in Hb as [Hc He]. apply is_empty_true in He.
    destruct (split_blank s He) as [h [Hh Hr]].
    cbn [split]. rewrite (isspace_not_comma _ Hc), Hh. cbn [map].
    now rewrite (rstrip_space _ _ Hc Hr).
  - cbn [split]. destruct (Ascii.eqb c ","); cbn [map]; [now rewrite IH |].
    destruct (split_cons_inv "," (rstrip s)) as [h1 [t1 E1]].
    destruct (split_cons_inv "," s) as [h2 [t2 E2]].
    rewrite E1, E2 in *. cbn [map] in *. injection IH as Hh Ht.
    now rewrite (rstrip_cons_congr c _ _ Hh), Ht.
Qed.

Lemma strip_space_cons c h : isspace c = true -> strip (String c h) = strip h.
Proof.
  intros Hc. unfold strip. cbn [rstrip]. rewrite Hc.
  destruct (rstrip h) as [| d r] eqn:Hr; cbn; [reflexivity |].
  now rewrite Hc.
Qed.

Lemma split_lstrip s :
  map strip (split "," (lstrip s)) = map strip (split "," s).
Proof.
  induction s as [| c s IH]; [reflexivity |].
  cbn [lstrip]. destruct (isspace c) eqn:Hc; [| reflexivity].
  rewrite IH. cbn [split]. rewrite (isspace_not_comma _ Hc).
  destruct (split_cons_inv "," s) as [h [t E]]. rewrite E. cbn [map].
  now rewrite (strip_space_cons _ _ Hc).
Qed.

(** Stripping the whole text first does not change the stripped fields. *)
Lemma split_strip s :
  map strip (split "," (strip s)) = map strip (split "," s).
Proof.
  unfold strip at 2. rewrite split_lstrip.
  change strip with (fun x => lstrip (rstrip x)).
  rewrite <- !(map_map rstrip lstrip). now rewrite split_rstrip.
Qed.

End StripSplit.

(** ** Running the monad *)

Lemma log_nil w : log w [] = w.
Proof. destruct w. unfold log. simpl. now rewrite app_nil_r. Qed.

Lemma log_log w a b : log (log w a) b = log w (a ++ b).
Proof. unfold log. simpl. now rewrite app_assoc. Qed.

Lemma history_log w evs : history (log w evs) = history w ++ evs.
Proof. reflexivity. Qed.

Lemma run_bind {A B} (m : M A) (f : A -> M B) host w :
  (m ≫= f) host w =
  match m host w with
  | (Ok a, w') => f a host w'
  | (Raise e, w') => (Raise e, w')
  end.
Proof. reflexivity. Qed.

Lemma run_window_exists name host w :
  cmds_window_exists name host w =
  (Ok (window_exists host (history w ++ [window_query name]) name),
   log w [window_query name]).
Proof. reflexivity. Qed.

Lemma run_call {A} fn args kwargs (f : Host -> History -> A) host w :
  call fn args kwargs f host w
  = (Ok (f host (history w ++ [Call fn args kwargs])), log w [Call fn args kwargs]).
Proof. reflexivity. Qed.

Lemma run_call_ fn args kwargs host w :
  call_ fn args kwargs host w = (Ok tt, log w [Call fn args kwargs]).
Proof. reflexivity. Qed.

Lemma run_bind_ok {A B} (m : M A) (f : A -> M B) host w a w' :
  m host w = (Ok a, w') -> (m ≫= f) host w = f a host w'.
Proof. intros H. rewrite run_bind, H. reflexivity. Qed.

Lemma run_bind_call_ {B} fn args kwargs (f : unit -> M B) host w :
  (call_ fn args kwargs ≫= f) host w = f tt host (log w [Call fn args kwargs]).
Proof. reflexivity. Qed.

Lemma run_bind_call {A B} fn args kwargs (g : Host -> History -> A)
    (f : A -> M B) host w :
  (call fn args kwargs g ≫= f) host w
  = f (g host (history w ++ [Call fn args kwargs])) host
      (log w [Call fn args kwargs]).
Proof. reflexivity. Qed.

Lemma run_for_each_call_ {A} (l : list A) (ev : A -> Event) body host w :
  (forall x host w, body x host w = (Ok tt, log w [ev x])) ->
  for_each l body host w = (Ok tt, log w (map ev l)).
Proof.
  intros Hbody. revert w. induction l as [| x l IH]; intros w; cbn [for_each map].
  - now rewrite log_nil.
  - rewrite run_bind, Hbody, IH, log_log. reflexivity.
Qed.

Lemma run_getitem {V} (d : gmap string V) k v host w :
  d !! k = Some v -> getitem d k host w = (Ok v, w).
Proof. intros H. unfold getitem. now rewrite H. Qed.

Lemma run_bind_answer {A B} (g : Host -> History -> A) (f : A -> M B) host w :
  (answer g ≫= f) host w = f (g host (history w)) host w.
Proof. reflexivity. Qed.

Lemma run_bind_when_call_ {B} b fn args kwargs (f : unit -> M B) host w :
  (when b (call_ fn args kwargs) ≫= f) host w
  = f tt host (log w (if b then [Call fn args kwargs] else [])).
Proof. destruct b; cbn [when]; [reflexivity |]. now rewrite log_nil. Qed.

Lemma run_when_call_ b fn args kwargs host w :
  when b (call_ fn args kwargs) host w
  = (Ok tt, log w (if b then [Call fn args kwargs] else [])).
Proof. destruct b; cbn [when]; [reflexivity |]. now rewrite log_nil. Qed.

(** ** The stream-type table *)

Lemma StreamTypes_lookup t l :
  StreamTypesPerSubjectType !! t = Some l ->
  (t = "Prop" /\ l = ["Root Only"; "Full Hierarchy"]) \/
  (t = "Character" /\ l = ["Root Only"; "Full Hierarchy"]) \/
  (t = "Camera" /\ l = ["Root Only"; "Full Hierarchy"; "Camera"]) \/
  (t = "Light" /\ l = ["Root Only"; "Full Hierarchy"; "Light"]).
Proof.
  intros H. apply elem_of_list_to_map_2 in H.
  repeat (apply elem_of_cons in H as [H | H];
          [injection H as -> ->; tauto |]).
  now apply elem_of_nil in H.
Qed.

(** C3. The table maps exactly the four subject types Prop, Character,
    Camera and Light; every mapped list is non-empty and contains
    "Root Only" and "Full Hierarchy"; the list of Camera also contains
    "Camera" and the list of Light also contains "Light". *)
Theorem StreamTypesPerSubjectType_enumeration :
  dom StreamTypesPerSubjectType
    = ({["Prop"; "Character"; "Camera"; "Light"]} : gset string) /\
  map_Forall (fun _ l => l <> [] /\ "Root Only" ∈ l /\ "Full Hierarchy" ∈ l)
    StreamTypesPerSubjectType /\
  (exists l, StreamTypesPerSubjectType !! "Camera" = Some l /\ "Camera" ∈ l) /\
  (exists l, StreamTypesPerSubjectType !! "Light" = Some l /\ "Light" ∈ l).
Proof.
  split; [| split; [| split]].
  - unfold StreamTypesPerSubjectType. rewrite dom_list_to_map_L. set_solver.
  - intros t l H.
    destruct (StreamTypes_lookup t l H) as [[_ ->] | [[_ ->] | [[_ ->] | [_ ->]]]];
      (split; [discriminate | split; set_solver]).
  - eexists. split; [reflexivity | set_solver].
  - eexists. split; [reflexivity | set_solver].
Qed.

(** ** Guards on the window *)

(** C9. When the window MayaLiveLinkUI does not exist, each of
    CreateSubjectTable, ClearSubjects, RefreshSubjects and
    MayaLiveLinkRefreshConnectionUI.doIt returns normally having made no
    host call beyond the existence query of its guard, and the globals
    are unchanged. *)
Theorem no_window_no_ui_call host w :
  window_exists host (history w ++ [window_query WindowName]) WindowName = false ->
  CreateSubjectTable host w = (Ok tt, log w [window_query WindowName]) /\
  ClearSubjects host w = (Ok tt, log w [window_query WindowName]) /\
  RefreshSubjects host w = (Ok tt, log w [window_query WindowName]) /\
  MayaLiveLinkRefreshUI_doIt host w = (Ok tt, log w [window_query WindowName]) /\
  MayaLiveLinkRefreshConnectionUI_doIt host w
    = (Ok tt, log w [window_query WindowName]).
Proof.
  intros H.
  unfold MayaLiveLinkRefreshUI_doIt, CreateSubjectTable, ClearSubjects,
    RefreshSubjects, MayaLiveLinkRefreshConnectionUI_doIt.
  rewrite !run_bind, run_window_exists, H. repeat split; reflexivity.
Qed.

(** ** The Ok handler of the endpoints dialog *)

Lemma run_OnOk host w UnicastTextField StaticTextField :
  let unicast_text :=
    textField_text host (history w ++ [textField_query UnicastTextField])
      UnicastTextField in
  let static_text :=
    textField_text host
      (history w ++ [textField_query UnicastTextField;
                     textField_query StaticTextField])
      StaticTextField in
  let d := {| unicast := OnOk_unicast unicast_text;
              static := OnOk_static static_text |} in
  OnOk UnicastTextField StaticTextField host w =
  (Ok (JsonDumps d),
   log w [textField_query UnicastTextField; textField_query StaticTextField;
          Call "cmds.layoutDialog" [] [("dismiss", VText (JsonDumps d))]]).
Proof.
  unfold OnOk, call, call_, emit, answer. rewrite !run_bind. cbn.
  unfold log. cbn. rewrite <- !app_assoc. reflexivity.
Qed.

(** C8. The Ok handler dismisses the dialog with a dictionary whose
    unicast endpoint is '0.0.0.0:0' when the unicast field is empty after
    stripping (and the stripped text otherwise), and whose static
    endpoints are the empty list when the static field is empty after
    stripping and otherwise the field text split on ',' with every
    element stripped; stripping the text before the split, as the code
    does, gives the same list. *)
Theorem OnOk_endpoints host w UnicastTextField StaticTextField :
  let unicast_text :=
    textField_text host (history w ++ [textField_query UnicastTextField])
      UnicastTextField in
  let static_text :=
    textField_text host
      (history w ++ [textField_query UnicastTextField;
                     textField_query StaticTextField])
      StaticTextField in
  exists d w',
    OnOk UnicastTextField StaticTextField host w = (Ok (JsonDumps d), w') /\
    last (history w')
      = Some (Call "cmds.layoutDialog" [] [("dismiss", VText (JsonDumps d))]) /\
    unicast d = (if PyStr.is_empty (PyStr.strip unicast_text) then "0.0.0.0:0"
                 else PyStr.strip unicast_text) /\
    static d = (if PyStr.is_empty (PyStr.strip static_text) then []
                else map PyStr.strip (PyStr.split "," static_text)) /\
    static d = (if PyStr.is_empty (PyStr.strip static_text) then []
                else map PyStr.strip (PyStr.split "," (PyStr.strip static_text))).
Proof.
  intros unicast_text static_text.
  eexists _, _. split; [apply run_OnOk |].
  fold unicast_text static_text. cbn [unicast static].
  split; [| split; [| split]].
  - unfold log. cbn [history]. rewrite last_app. reflexivity.
  - reflexivity.
  - unfold OnOk_static. now rewrite split_strip.
  - reflexivity.
Qed.

(** ** Command classes *)

Lemma Class_forall_ind (P : Class -> Prop) :
  (forall n bs, Forall P bs -> P (MkClass n bs)) -> forall c, P c.
Proof.
  intros step. fix IH 1. intros [n bs]. apply step.
  induction bs as [| b bs IHbs]; constructor; [apply IH | exact IHbs].
Qed.

Lemma class_eqb_eq c d : class_eqb c d = true <-> c = d.
Proof.
  revert d. induction c as [n bs IH] using Class_forall_ind. intros [m ds].
  cbn [class_eqb]. rewrite andb_true_iff, String.eqb_eq.
  enough (Hall : (fix all2 (bs ds : list Class) : bool :=
             match bs, ds with
             | [], [] => true
             | b :: bs', d' :: ds' => class_eqb b d' && all2 bs' ds'
             | _, _ => false
             end) bs ds = true <-> bs = ds).
  { rewrite Hall. split; [intros [-> ->]; reflexivity | intros [= -> ->]; auto]. }
  revert ds. induction IH as [| b bs Hb _ IHbs]; intros [| d' ds];
    try (split; [discriminate | congruence]); [tauto |].
  rewrite andb_true_iff, Hb, IHbs. split; [intros [-> ->]; reflexivity | intros [= -> ->]; auto].
Qed.

Lemma subclass_of_Subclass c d : subclass_of c d = true <-> Subclass c d.
Proof.
  induction c as [n bs IH] using Class_forall_ind.
  cbn [subclass_of]. rewrite orb_true_iff, class_eqb_eq, existsb_exists.
  split.
  - intros [<- | [b [Hin Hb]]]; [constructor |].
    apply list_elem_of_In in Hin. rewrite Forall_forall in IH.
    apply (Subclass_base _ b); [exact Hin | now apply IH].
  - intros H. inversion H as [| c' b d' Hin Hb]; subst; [now left |].
    right. exists b. cbn [__bases__] in Hin. rewrite Forall_forall in IH.
    split; [now apply list_elem_of_In | now apply IH].
Qed.

Lemma IsLiveLinkCommand_total o :
  exists b, IsLiveLinkCommand o = Ok b /\ (b = true <-> LiveLinkCommandClass o).
Proof.
  unfold LiveLinkCommandClass.
  destruct o as [c | | | | | |];
    try (exists false; split; [reflexivity |];
         split; [discriminate | intros [c [[=] _]]]).
  exists (subclass_of c LiveLinkCommand && negb (class_eqb c LiveLinkCommand)).
  split.
  - unfold IsLiveLinkCommand. cbn.
    destruct (subclass_of c LiveLinkCommand); reflexivity.
  - rewrite andb_true_iff, negb_true_iff, subclass_of_Subclass.
    split.
    + intros [Hs Hne]. exists c. repeat split; [exact Hs |].
      intros Heq. apply class_eqb_eq in Heq. congruence.
    + intros [c' [[= <-] [Hs Hne]]]. split; [exact Hs |].
      destruct (class_eqb c LiveLinkCommand) eqn:E; [| reflexivity].
      apply class_eqb_eq in E. contradiction.
Qed.

#[local] Instance LiveLinkCommandClass_dec o : Decision (LiveLinkCommandClass o).
Proof.
  destruct (IsLiveLinkCommand o) as [[|] |] eqn:E; [left | right | right];
    destruct (IsLiveLinkCommand_total o) as [b [Hb Hiff]];
    rewrite E in Hb; try discriminate; injection Hb as <-.
  - now apply Hiff.
  - intros H. apply Hiff in H. discriminate.
Defined.

Lemma GetLiveLinkCommandsFromModule_filter eval items objs :
  Forall2 (fun Item o => eval Item = Ok o) items objs ->
  GetLiveLinkCommandsFromModule eval items
    = Ok (filter LiveLinkCommandClass objs).
Proof.
  induction 1 as [| Item o items objs Ho _ IH]; [reflexivity |].
  cbn [GetLiveLinkCommandsFromModule]. rewrite Ho, IH.
  destruct (IsLiveLinkCommand_total o) as [b [Hb Hiff]].
  unfold mbind, Result_bind. rewrite Hb.
  rewrite filter_cons. destruct b; destruct (decide (LiveLinkCommandClass o)) as [Hc | Hc];
    try reflexivity.
  - exfalso; apply Hc, Hiff; reflexivity.
  - apply Hiff in Hc. discriminate.
Qed.

Lemma dir_evaluates :
  Forall2 (fun Item o => eval_in module_globals Item = Ok o)
    dir (map snd module_globals).
Proof. repeat constructor. Qed.

Lemma omap_as_class_filter objs :
  map PyClass (omap as_class (filter LiveLinkCommandClass objs))
    = filter LiveLinkCommandClass objs.
Proof.
  induction objs as [| o objs IH]; [reflexivity |].
  rewrite filter_cons. destruct (decide (LiveLinkCommandClass o)) as [[c [-> _]] | _];
    [| exact IH].
  cbn. now rewrite IH.
Qed.

Lemma Commands_filter :
  map PyClass Commands = filter LiveLinkCommandClass (map snd module_globals).
Proof.
  unfold Commands.
  rewrite (GetLiveLinkCommandsFromModule_filter _ _ _ dir_evaluates).
  apply omap_as_class_filter.
Qed.

Lemma Commands_eq :
  Commands = [MayaLiveLinkRefreshConnectionUI; MayaLiveLinkRefreshUI; MayaLiveLinkUI].
Proof. reflexivity. Qed.

(** C5. IsLiveLinkCommand never raises and answers True exactly on the
    classes that are subclasses of LiveLinkCommand other than
    LiveLinkCommand itself; when every item evaluates,
    GetLiveLinkCommandsFromModule returns the evaluated items that
    satisfy that predicate, in order; and Commands is that selection
    among the names bound in the module. *)
Theorem Commands_are_the_strict_subclasses :
  (forall o, exists b,
     IsLiveLinkCommand o = Ok b /\
     (b = true <->
      isclass o = true /\
      exists c, o = PyClass c /\ Subclass c LiveLinkCommand /\ c <> LiveLinkCommand)) /\
  (forall eval items objs,
     Forall2 (fun Item o => eval Item = Ok o) items objs ->
     GetLiveLinkCommandsFromModule eval items
       = Ok (filter LiveLinkCommandClass objs)) /\
  map PyClass Commands = filter LiveLinkCommandClass (map snd module_globals) /\
  (forall c, c ∈ Commands <->
     (exists name, (name, PyClass c) ∈ module_globals) /\
     Subclass c LiveLinkCommand /\ c <> LiveLinkCommand).
Proof.
  split; [| split; [| split]].
  - intros o. destruct (IsLiveLinkCommand_total o) as [b [Hb Hiff]].
    exists b. split; [exact Hb |]. rewrite Hiff. unfold LiveLinkCommandClass.
    split; [intros [c [-> H]]; split; [reflexivity | eauto] | tauto].
  - apply GetLiveLinkCommandsFromModule_filter.
  - apply Commands_filter.
  - intros c.
    assert (Hinj : Inj eq eq PyClass) by (intros x y [=]; assumption).
    rewrite <- (list_elem_of_fmap_inj PyClass).
    change (PyClass <$> Commands) with (map PyClass Commands).
    rewrite Commands_filter, list_elem_of_filter.
    change (map snd module_globals) with (snd <$> module_globals).
    rewrite list_elem_of_fmap.
    unfold LiveLinkCommandClass. split.
    + intros [[c' [[= <-] H]] [[name o] [Ho Hin]]]. cbn in Ho. subst o.
      split; [eauto | exact H].
    + intros [[name Hin] H]. split; [eauto |]. exists (name, PyClass c). eauto.
Qed.

(** ** What a computation adds to the history *)

Section Emits.
Context (P : Event -> Prop).

Lemma emits_ret {A} (a : A) : emits P (mret a).
Proof. intros host w. exists []. cbn. now rewrite app_nil_r. Qed.

Lemma emits_raise {A} e : emits P (@raise A e).
Proof. intros host w. exists []. cbn. now rewrite app_nil_r. Qed.

Lemma emits_answer {A} (f : Host -> History -> A) : emits P (answer f).
Proof. intros host w. exists []. cbn. now rewrite app_nil_r. Qed.

Lemma emits_emit e : P e -> emits P (emit e).
Proof. intros He host w. exists [e]. cbn. auto. Qed.

Lemma emits_bind {A B} (m : M A) (f : A -> M B) :
  emits P m -> (forall a, emits P (f a)) -> emits P (m ≫= f).
Proof.
  intros Hm Hf host w. rewrite run_bind.
  destruct (Hm host w) as [evs [Hh Hall]].
  destruct (m host w) as [[a | e] w1]; cbn [snd] in *.
  - destruct (Hf a host w1) as [evs' [Hh' Hall']].
    exists (evs ++ evs'). rewrite Hh', Hh, app_assoc. split; [reflexivity |].
    apply Forall_app; auto.
  - exists evs. auto.
Qed.

Lemma emits_try_except {A} (body : M A) handler :
  emits P body -> (forall e, emits P (handler e)) -> emits P (try_except body handler).
Proof.
  intros Hm Hf host w. unfold try_except.
  destruct (Hm host w) as [evs [Hh Hall]].
  destruct (body host w) as [[a | e] w1]; cbn [snd] in *.
  - exists evs. auto.
  - destruct (Hf e host w1) as [evs' [Hh' Hall']].
    exists (evs ++ evs'). rewrite Hh', Hh, app_assoc. split; [reflexivity |].
    apply Forall_app; auto.
Qed.

Lemma emits_call_ fn args kwargs : P (Call fn args kwargs) -> emits P (call_ fn args kwargs).
Proof. apply emits_emit. Qed.

Lemma emits_call {A} fn args kwargs (f : Host -> History -> A) :
  P (Call fn args kwargs) -> emits P (call fn args kwargs f).
Proof.
  intros H. apply emits_bind; [now apply emits_emit | intros; apply emits_answer].
Qed.

Lemma emits_when b body : emits P body -> emits P (when b body).
Proof. destruct b; [auto | intros; apply emits_ret]. Qed.

Lemma emits_for_each {A} (l : list A) body :
  (forall x, emits P (body x)) -> emits P (for_each l body).
Proof.
  intros Hb. induction l as [| x l IH]; cbn [for_each];
    [apply emits_ret | apply emits_bind; auto].
Qed.

Lemma emits_getitem {V} (d : gmap string V) k : emits P (getitem d k).
Proof. unfold getitem. destruct (d !! k); [apply emits_ret | apply emits_raise]. Qed.

Lemma emits_list_index l x : emits P (list_index l x).
Proof. unfold list_index. destruct (index_of x l); [apply emits_ret | apply emits_raise]. Qed.

Lemma emits_iter {A} (x : option (list A)) : emits P (iter x).
Proof. destruct x; [apply emits_ret | apply emits_raise]. Qed.

Lemma emits_json_loads t : emits P (json_loads t).
Proof. destruct t; [apply emits_raise | apply emits_ret]. Qed.

Lemma emits_get_id : emits P get_AfterPluginUnloadCallbackId.
Proof. intros host w. exists []. cbn. now rewrite app_nil_r. Qed.

Lemma emits_set_id v : emits P (set_AfterPluginUnloadCallbackId v).
Proof. intros host w. exists []. cbn. now rewrite app_nil_r. Qed.

End Emits.

Create HintDb emits discriminated.
#[local] Hint Resolve emits_ret emits_raise emits_answer emits_bind
  emits_try_except emits_when emits_for_each emits_getitem emits_list_index
  emits_iter emits_json_loads emits_get_id emits_set_id : emits.

(** One step of the syntax of a computation; events are checked by
    evaluation. *)
Ltac emits_step :=
  lazymatch goal with
  | |- emits _ (call_ _ _ _) => apply emits_call_; reflexivity
  | |- emits _ (call _ _ _ _) => apply emits_call; reflexivity
  | |- emits _ (emit _) => apply emits_emit; reflexivity
  | |- emits _ (if ?b then _ else _) => destruct b
  | |- emits _ (match ?x with Some _ => _ | None => _ end) => destruct x
  | |- emits _ (match ?x with ButtonCancel => _ | ButtonOk => _ end) => destruct x
  | |- emits _ (let _ := _ in _) => cbv zeta
  | |- emits _ (for_each _ _) => apply emits_for_each
  | |- emits _ (when _ _) => apply emits_when
  | |- emits _ (try_except _ _) => apply emits_try_except
  | |- emits _ (mbind _ _) => apply emits_bind
  | |- forall _, _ => intro
  | |- _ => solve [eauto with emits]
  end.
Ltac emits_tac := repeat emits_step.

Lemma calls_to_app fn h1 h2 : calls_to fn (h1 ++ h2) = calls_to fn h1 ++ calls_to fn h2.
Proof. apply List.filter_app. Qed.

Lemma calls_to_none fn evs : Forall (no_call_to fn) evs -> calls_to fn evs = [].
Proof.
  induction 1 as [| e evs He _ IH]; [reflexivity |].
  cbn. rewrite He. exact IH.
Qed.

Lemma emits_calls_to fn {A} (m : M A) host w :
  emits (no_call_to fn) m ->
  calls_to fn (history (snd (m host w))) = calls_to fn (history w).
Proof.
  intros Hm. destruct (Hm host w) as [evs [-> Hall]].
  now rewrite calls_to_app, (calls_to_none _ _ Hall), app_nil_r.
Qed.

(** ** Removing and adding subjects *)

Section RefreshFrame.
(** Refreshing the table calls neither of the two subject commands. *)
Context (fn : string).
Hypothesis fn_subject :
  fn = "cmds.LiveLinkRemoveSubject" \/ fn = "cmds.LiveLinkAddSelection".







End RefreshFrame.

(** ** The scene callback *)

Lemma AfterPluginUnloadCallback_unfold stringArray clientData :
  AfterPluginUnloadCallback stringArray clientData =
  if existsb (fun s => PyStr.startswith s "MayaLiveLinkPlugin") stringArray
  then ClearSubjects ;; CreateSubjectTable
  else mret tt.
Proof.
  induction stringArray as [| stringVal rest IH]; [reflexivity |].
  cbn [AfterPluginUnloadCallback existsb].
  destruct (PyStr.startswith stringVal "MayaLiveLinkPlugin"); [reflexivity | exact IH].
Qed.

Lemma CreateSubjectTable_keeps_table :
  emits (no_call_to "cmds.deleteUI") CreateSubjectTable.
Proof. unfold CreateSubjectTable, cmds_window_exists. emits_tac. Qed.

(** ** The rows of the subject table *)

Lemma index_of_Some x l i :
  index_of x l = Some i ->
  l !! i = Some x /\ forall j, j < i -> l !! j <> Some x.
Proof.
  revert i. induction l as [| y l IH]; intros i; cbn [index_of]; [discriminate |].
  destruct (String.eqb_spec y x) as [-> | Hne].
  - intros [= <-]. split; [reflexivity | lia].
  - destruct (index_of x l) as [i' |]; [| discriminate].
    intros [= <-]. destruct (IH i' eq_refl) as [Hi Hlt]. split; [exact Hi |].
    intros [| j] Hj; cbn; [congruence | apply Hlt; lia].
Qed.

Lemma index_of_elem x l : x ∈ l -> exists i, index_of x l = Some i.
Proof.
  induction 1 as [x l | x y l _ [i IH]]; cbn [index_of].
  - rewrite String.eqb_refl. eauto.
  - destruct (String.eqb y x); [eauto |]. rewrite IH. cbn. eauto.
Qed.

Lemma run_SubjectRow host w k n p t r l i :
  StreamTypesPerSubjectType !! t = Some l ->
  index_of r l = Some i ->
  SubjectRow k n p t r host w
  = (Ok tt, log w (row_cells k n p t ++ menu_items l ++ [menu_select (i + 1)])).
Proof.
  intros Hl Hi. unfold SubjectRow.
  rewrite !run_bind_call_.
  rewrite (run_bind_ok _ _ _ _ _ _ (run_getitem _ _ _ _ _ Hl)).
  rewrite (run_bind_ok _ _ _ _ _ _
             (run_for_each_call_ l
                (fun s => Call "cmds.menuItem" [] [("label", VStr s)])
                _ _ _ (fun _ _ _ => eq_refl))).
  rewrite (run_bind_ok _ _ _ _ _ _ (run_getitem _ _ _ _ _ Hl)).
  unfold list_index. rewrite Hi.
  rewrite run_bind. cbv zeta. cbn [mret M_ret]. rewrite run_call_.
  rewrite !log_log. reflexivity.
Qed.

(** C4. For a row whose role occurs in the stream-type list of its
    subject type, SubjectRow gives the option menu one item per element
    of that list, in order, and then selects the 1-based position of the
    first occurrence of the role. *)
Theorem option_menu_of_row host w RowCounter
    SubjectName SubjectPath SubjectType SubjectRole StreamTypes :
  StreamTypesPerSubjectType !! SubjectType = Some StreamTypes ->
  SubjectRole ∈ StreamTypes ->
  exists i,
    StreamTypes !! i = Some SubjectRole /\
    (forall j, j < i -> StreamTypes !! j <> Some SubjectRole) /\
    SubjectRow RowCounter SubjectName SubjectPath SubjectType SubjectRole host w
    = (Ok tt,
       log w (row_cells RowCounter SubjectName SubjectPath SubjectType
              ++ menu_items StreamTypes ++ [menu_select (i + 1)])).
Proof.
  intros Hl Hin. destruct (index_of_elem _ _ Hin) as [i Hi].
  destruct (index_of_Some _ _ _ Hi) as [Hat Hfirst].
  exists i. repeat split; [exact Hat | exact Hfirst |].
  now apply run_SubjectRow.
Qed.

Lemma created_rows_app h1 h2 :
  created_rows (h1 ++ h2) = created_rows h1 ++ created_rows h2.
Proof. apply omap_app. Qed.

Lemma created_rows_menu_items l : created_rows (menu_items l) = [].
Proof. induction l as [| x l IH]; [reflexivity | exact IH]. Qed.

Lemma created_rows_row k n p t l i :
  created_rows (row_cells k n p t ++ menu_items l ++ [menu_select i])
  = [LayoutName k].
Proof.
  rewrite !created_rows_app, created_rows_menu_items. reflexivity.
Qed.

Lemma run_SubjectRows host rows :
  Forall valid_row rows ->
  forall k w, exists evs,
    SubjectRows k rows host w = (Ok tt, log w evs) /\
    created_rows evs = map LayoutName (seq k (length rows)).
Proof.
  induction 1 as [| [[[n p] t] r] rows [l [Hl Hr]] _ IH]; intros k w.
  - exists []. cbn. now rewrite log_nil.
  - destruct (index_of_elem _ _ Hr) as [i Hi].
    destruct (IH (k + 1)
                (log w (row_cells k n p t ++ menu_items l ++ [menu_select (i + 1)])))
      as [evs [Hrun Hrows]].
    eexists. cbn [SubjectRows].
    rewrite (run_bind_ok _ _ _ _ _ _ (run_SubjectRow host w k n p t r l i Hl Hi)).
    rewrite Hrun, log_log. split; [reflexivity |].
    rewrite created_rows_app, created_rows_row, Hrows.
    cbn [length seq map app]. now rewrite Nat.add_1_r.
Qed.

Lemma length_zip4 {A B C D} (a : list A) (b : list B) (c : list C) (d : list D) :
  length (zip4 a b c d)
  = Nat.min (Nat.min (length a) (length b)) (Nat.min (length c) (length d)).
Proof.
  revert b c d. induction a as [| x a IH]; intros [| y b] [| z c] [| t d];
    cbn [zip4 length]; try lia.
  rewrite IH. lia.
Qed.

Lemma LayoutName_inj : Inj eq eq LayoutName.
Proof.
  intros i j H. unfold LayoutName, PyStr.str in H.
  apply String.app_inj in H. now apply pretty_nat_inj in H.
Qed.

Lemma NoDup_LayoutNames n : NoDup (map LayoutName (seq 0 n)).
Proof.
  apply (NoDup_fmap_2 LayoutName). apply NoDup_ListNoDup, List.seq_NoDup.
Qed.

(** [PopulateSubjects] on the four answers of the host. *)
Lemma run_PopulateSubjects host w :
  let h1 := history w ++ [SubjectNames_query] in
  let h2 := history w ++ [SubjectNames_query; SubjectPaths_query] in
  let h3 := history w ++ [SubjectNames_query; SubjectPaths_query;
                          SubjectTypes_query] in
  let h4 := history w ++ [SubjectNames_query; SubjectPaths_query;
                          SubjectTypes_query; SubjectRoles_query] in
  let w4 := log w [SubjectNames_query; SubjectPaths_query;
                   SubjectTypes_query; SubjectRoles_query] in
  PopulateSubjects host w =
  match LiveLinkSubjectPaths host h2 with
  | None => (Ok tt, w4)
  | Some paths =>
      match LiveLinkSubjectNames host h1, LiveLinkSubjectTypes host h3,
            LiveLinkSubjectRoles host h4 with
      | Some names, Some types, Some roles =>
          SubjectRows 0 (zip4 names paths types roles) host w4
      | _, _, _ => (Raise TypeError, w4)
      end
  end.
Proof.
  intros h1 h2 h3 h4 w4. subst h1 h2 h3 h4 w4.
  unfold PopulateSubjects. rewrite !run_bind_call.
  fold SubjectNames_query SubjectPaths_query SubjectTypes_query SubjectRoles_query.
  unfold log. cbn [history AfterPluginUnloadCallbackId].
  rewrite <- !app_assoc. cbn [app].
  destruct (LiveLinkSubjectPaths host _) as [paths |]; [| reflexivity].
  destruct (LiveLinkSubjectNames host _) as [names |]; [| reflexivity].
  destruct (LiveLinkSubjectTypes host _) as [types |]; [| reflexivity].
  destruct (LiveLinkSubjectRoles host _) as [roles |]; reflexivity.
Qed.

(** C10, as stated, fails: with two subjects of which the first has a
    type missing from the table, the paths query answers a list, the
    minimum of the four lengths is 2, and yet PopulateSubjects raises
    KeyError inside the first row and creates one row only. *)
Lemma PopulateSubjects_unknown_type_one_row :
  let host := host_with_subjects
                (Some ["cube"; "cam"]) (Some ["|cube"; "|cam"])
                (Some ["Mesh"; "Camera"]) (Some ["Root Only"; "Camera"]) in
  LiveLinkSubjectPaths host
    (history initial_world ++ [SubjectNames_query; SubjectPaths_query])
    = Some ["|cube"; "|cam"] /\
  Nat.min (Nat.min (length ["cube"; "cam"]) (length ["|cube"; "|cam"]))
          (Nat.min (length ["Mesh"; "Camera"]) (length ["Root Only"; "Camera"]))
    = 2 /\
  fst (PopulateSubjects host initial_world) = Raise (KeyError "Mesh") /\
  created_rows (history (snd (PopulateSubjects host initial_world)))
    = ["ColumnLayoutRow_0"].
Proof. cbv zeta. repeat split. Qed.

(** C10 (amended). When the paths query answers None, PopulateSubjects
    makes its four queries and creates no row.  When the four queries
    answer lists and every zipped row has a type of the table and a role
    among the stream types of that type, PopulateSubjects returns
    normally and creates exactly min(len(SubjectNames), len(SubjectPaths),
    len(SubjectTypes), len(SubjectRoles)) rows, whose layout names are
    ColumnLayoutRow_0, ColumnLayoutRow_1, ... in order, all distinct. *)
Theorem PopulateSubjects_rows host w :
  let h1 := history w ++ [SubjectNames_query] in
  let h2 := history w ++ [SubjectNames_query; SubjectPaths_query] in
  let h3 := history w ++ [SubjectNames_query; SubjectPaths_query;
                          SubjectTypes_query] in
  let h4 := history w ++ [SubjectNames_query; SubjectPaths_query;
                          SubjectTypes_query; SubjectRoles_query] in
  (LiveLinkSubjectPaths host h2 = None ->
     PopulateSubjects host w
       = (Ok tt, log w [SubjectNames_query; SubjectPaths_query;
                        SubjectTypes_query; SubjectRoles_query]) /\
     created_rows (history (snd (PopulateSubjects host w)))
       = created_rows (history w)) /\
  (forall names paths types roles,
     LiveLinkSubjectNames host h1 = Some names ->
     LiveLinkSubjectPaths host h2 = Some paths ->
     LiveLinkSubjectTypes host h3 = Some types ->
     LiveLinkSubjectRoles host h4 = Some roles ->
     Forall valid_row (zip4 names paths types roles) ->
     let n := Nat.min (Nat.min (length names) (length paths))
                      (Nat.min (length types) (length roles)) in
     fst (PopulateSubjects host w) = Ok tt /\
     created_rows (history (snd (PopulateSubjects host w)))
       = created_rows (history w) ++ map LayoutName (seq 0 n) /\
     length (map LayoutName (seq 0 n)) = n /\
     NoDup (map LayoutName (seq 0 n))).
Proof.
  intros h1 h2 h3 h4. pose proof (run_PopulateSubjects host w) as Hrun.
  cbv zeta in Hrun. fold h1 h2 h3 h4 in Hrun. split.
  - intros Hnone. rewrite Hnone in Hrun. rewrite Hrun. split; [reflexivity |].
    cbn [snd]. rewrite history_log, created_rows_app. cbn. now rewrite app_nil_r.
  - intros names paths types roles Hn Hp Ht Hr Hvalid n.
    rewrite Hn, Hp, Ht, Hr in Hrun.
    destruct (run_SubjectRows host _ Hvalid 0
                (log w [SubjectNames_query; SubjectPaths_query;
                        SubjectTypes_query; SubjectRoles_query]))
      as [evs [Hrows Hcreated]].
    rewrite Hrun, Hrows. cbn [fst snd]. split; [reflexivity |].
    rewrite log_log, history_log, !created_rows_app, Hcreated, length_zip4.
    fold n. cbn [created_rows omap]. split; [reflexivity |].
    split; [now rewrite length_map, length_seq | apply NoDup_LayoutNames].
Qed.

(** The amended C10 on two well-formed subjects: two rows. *)
Lemma PopulateSubjects_rows_witness :
  created_rows
    (history (snd (PopulateSubjects
                     (host_with_subjects
                        (Some ["cube"; "cam"]) (Some ["|cube"; "|cam"])
                        (Some ["Prop"; "Camera"]) (Some ["Root Only"; "Camera"]))
                     initial_world)))
  = ["ColumnLayoutRow_0"; "ColumnLayoutRow_1"].
Proof.
  refine (proj1 (proj2 (proj2 (PopulateSubjects_rows
    (host_with_subjects (Some ["cube"; "cam"]) (Some ["|cube"; "|cam"])
       (Some ["Prop"; "Camera"]) (Some ["Root Only"; "Camera"]))
    initial_world)
    ["cube"; "cam"] ["|cube"; "|cam"] ["Prop"; "Camera"] ["Root Only"; "Camera"]
    eq_refl eq_refl eq_refl eq_refl _))).
  repeat constructor; eexists; (split; [reflexivity | set_solver]).
Defined.

(** ** Refreshing the subject table *)

Lemma run_ClearSubjects host w :
  ClearSubjects host w =
  (Ok tt,
   log w (window_query WindowName
          :: if window_exists host (history w ++ [window_query WindowName]) WindowName
             then [delete_table_call] else [])).
Proof.
  unfold ClearSubjects. rewrite run_bind, run_window_exists.
  destruct (window_exists host _ _); cbn [when]; [| reflexivity].
  rewrite run_call_, log_log. reflexivity.
Qed.

Lemma run_CreateSubjectTable host w :
  CreateSubjectTable host w =
  (Ok tt,
   log w (window_query WindowName
          :: if window_exists host (history w ++ [window_query WindowName]) WindowName
             then table_header else [])).
Proof.
  unfold CreateSubjectTable. rewrite run_bind, run_window_exists.
  destruct (window_exists host _ _); cbn [negb]; [| reflexivity].
  rewrite !run_bind_call_, run_call_, !log_log. reflexivity.
Qed.




(** On a host with a window and two subjects, removing a subject deletes
    the table, recreates it with its header, queries the subjects and
    creates their two rows. *)
Example OnRemoveSubject_refreshes :
  let host := host_with_subjects (Some ["cube"; "cam"]) (Some ["|cube"; "|cam"])
                (Some ["Prop"; "Camera"]) (Some ["Root Only"; "Camera"]) in
  let w' := snd (OnRemoveSubject "|sun" host initial_world) in
  firstn 15 (history w')
    = Call "cmds.LiveLinkRemoveSubject" [VStr "|sun"] []
      :: refresh_events true ++ subject_queries /\
  creations (history w') = firstn 1 table_header /\
  deletions (history w') = [delete_table_call] /\
  created_rows (history w') = ["ColumnLayoutRow_0"; "ColumnLayoutRow_1"].
Proof. cbv zeta. repeat split. Qed.

(** C6. AfterPluginUnloadCallback clears and recreates the subject table
    exactly when some string of the array starts with
    'MayaLiveLinkPlugin', and does so once however many strings have the
    prefix: it then runs ClearSubjects followed by CreateSubjectTable,
    which, the window existing, delete SubjectLayout once and create it
    again with its header; otherwise it does nothing at all. *)
Theorem AfterPluginUnloadCallback_spec stringArray clientData :
  AfterPluginUnloadCallback stringArray clientData
  = (if existsb (fun s => PyStr.startswith s "MayaLiveLinkPlugin") stringArray
     then ClearSubjects ;; CreateSubjectTable
     else mret tt) /\
  (forall host w,
    calls_to "cmds.deleteUI"
      (history (snd (AfterPluginUnloadCallback stringArray clientData host w)))
    = calls_to "cmds.deleteUI" (history w)
      ++ (if existsb (fun s => PyStr.startswith s "MayaLiveLinkPlugin") stringArray
             && window_exists host (history w ++ [window_query WindowName])
                  WindowName
          then [Call "cmds.deleteUI" [VStr "SubjectLayout"] []]
          else [])) /\
  (forall host w,
    let cleared :=
      window_query WindowName
      :: (if window_exists host (history w ++ [window_query WindowName]) WindowName
          then [delete_table_call] else []) in
    let recreated :=
      window_query WindowName
      :: (if window_exists host
               (history w ++ cleared ++ [window_query WindowName]) WindowName
          then table_header else []) in
    AfterPluginUnloadCallback stringArray clientData host w
    = (Ok tt,
       log w (if existsb (fun s => PyStr.startswith s "MayaLiveLinkPlugin")
                   stringArray
              then cleared ++ recreated else []))).
Proof.
  split; [apply AfterPluginUnloadCallback_unfold |]. split.
  - intros host w. rewrite AfterPluginUnloadCallback_unfold.
    destruct (existsb _ stringArray); cbn [andb].
    + rewrite run_bind. unfold ClearSubjects at 1.
      rewrite run_bind, run_window_exists.
      destruct (window_exists host _ WindowName); cbn [when].
      * rewrite run_call_, log_log.
        rewrite emits_calls_to by apply CreateSubjectTable_keeps_table.
        rewrite history_log, calls_to_app. reflexivity.
      * cbn [mret M_ret].
        rewrite emits_calls_to by apply CreateSubjectTable_keeps_table.
        rewrite history_log, calls_to_app. reflexivity.
    + cbn. now rewrite app_nil_r.
  - intros host w cleared recreated. rewrite AfterPluginUnloadCallback_unfold.
    destruct (existsb _ stringArray); [| cbn; now rewrite log_nil].
    rewrite (run_bind_ok _ _ _ _ _ _ (run_ClearSubjects host w)).
    fold cleared. rewrite run_CreateSubjectTable, history_log, <- app_assoc.
    fold recreated. now rewrite log_log.
Qed.

(** On a host with a window, the unloading of the native plugin deletes
    the table and creates it again with its header, once, for an array
    with two matching strings. *)
Example AfterPluginUnloadCallback_recreates :
  AfterPluginUnloadCallback
    ["MayaLiveLinkPlugin2023"; "other"; "MayaLiveLinkPlugin.mll"] None
    (host_with_subjects None None None None) initial_world
  = (Ok tt,
     log initial_world
       ([window_query WindowName; delete_table_call; window_query WindowName]
        ++ table_header)).
Proof. reflexivity. Qed.

(** ** Loading and unloading the plugin *)

Lemma host_calls_app h1 h2 : host_calls (h1 ++ h2) = host_calls h1 ++ host_calls h2.
Proof. apply List.filter_app. Qed.

Lemma run_register_all host (cmds : list Class) :
  (forall h c, c ∈ cmds -> registerCommand_refused host h (__name__ c) = false) ->
  forall w, exists evs,
    for_each cmds register_one host w = (Ok tt, log w evs) /\
    host_calls evs = map register_call cmds.
Proof.
  induction cmds as [| c cmds IH]; intros Hacc w.
  - exists []. cbn. now rewrite log_nil.
  - set (p := Print (tab +:+ "Registering Command '" +:+ __name__ c +:+ "'")).
    destruct (IH (fun h c' Hc' => Hacc h c' (list_elem_of_further _ _ _ Hc'))
                (log w [p; register_call c])) as [evs [Hrun Hcalls]].
    exists ([p; register_call c] ++ evs). cbn [for_each].
    assert (Hone : register_one c host w = (Ok tt, log w [p; register_call c])).
    { unfold register_one, try_except, registerCommand.
      rewrite run_bind. cbn [emit]. rewrite run_bind_call.
      rewrite Hacc by apply list_elem_of_here.
      cbn [mret M_ret]. rewrite log_log. reflexivity. }
    rewrite (run_bind_ok _ _ _ _ _ _ Hone), Hrun, log_log.
    split; [reflexivity |]. rewrite host_calls_app, Hcalls. reflexivity.
Qed.

Lemma run_deregister_all host (cmds : list Class) :
  forall w, exists w',
    for_each cmds deregister_one host w = (Ok tt, w') /\
    host_calls (history w') = host_calls (history w) ++ map deregister_call cmds /\
    AfterPluginUnloadCallbackId w' = AfterPluginUnloadCallbackId w.
Proof.
  induction cmds as [| c cmds IH]; intros w.
  - exists w. cbn. now rewrite app_nil_r.
  - cbn [for_each].
    assert (Hone : exists w1,
               deregister_one c host w = (Ok tt, w1) /\
               host_calls (history w1) = host_calls (history w) ++ [deregister_call c] /\
               AfterPluginUnloadCallbackId w1 = AfterPluginUnloadCallbackId w).
    { unfold deregister_one, try_except, deregisterCommand.
      rewrite run_bind_call. fold (deregister_call c).
      destruct (deregisterCommand_refused host _ _); eexists;
        (split; [reflexivity |]); cbn [history log AfterPluginUnloadCallbackId];
        rewrite !host_calls_app; cbn; now rewrite ?app_nil_r. }
    destruct Hone as [w1 [Hrun1 [Hc1 Hid1]]].
    destruct (IH w1) as [w' [Hrun [Hc Hid]]].
    exists w'. rewrite (run_bind_ok _ _ _ _ _ _ Hrun1), Hrun.
    split; [reflexivity |]. rewrite Hc, Hc1, Hid, Hid1, <- app_assoc. auto.
Qed.

(** C2, as stated, fails: on a host that refuses one registration,
    initializePlugin re-raises the error, never asks for the
    registration of MayaLiveLinkUI although it is in Commands, and
    subscribes no callback. *)
Lemma initializePlugin_refused_registration :
  MayaLiveLinkUI ∈ Commands /\
  fst (initializePlugin (VConst "mobject") refusing_host initial_world)
    = Raise RuntimeError /\
  host_calls
    (history (snd (initializePlugin (VConst "mobject") refusing_host initial_world)))
    = [MFnPlugin_call (VConst "mobject");
       register_call MayaLiveLinkRefreshConnectionUI;
       register_call MayaLiveLinkRefreshUI] /\
  AfterPluginUnloadCallbackId
    (snd (initializePlugin (VConst "mobject") refusing_host initial_world)) = None.
Proof.
  split; [| repeat split].
  rewrite Commands_eq. do 2 apply list_elem_of_further. apply list_elem_of_here.
Qed.

(** C2 (amended). On a host that refuses none of the registrations,
    initializePlugin returns normally after calling registerCommand once
    for every class of Commands, under the name of the class and in
    order, and then addStringArrayCallback for kAfterPluginUnload
    exactly once, whose id it stores.  uninitializePlugin always returns
    normally: it removes the stored callback when there is one, leaves
    the stored id None, and calls deregisterCommand once for every class
    of Commands. *)
Theorem plugin_lifecycle host w mobject :
  ((forall h c, c ∈ Commands ->
      registerCommand_refused host h (__name__ c) = false) ->
   exists w',
     initializePlugin mobject host w = (Ok tt, w') /\
     host_calls (history w')
       = host_calls (history w) ++ [MFnPlugin_call mobject]
         ++ map register_call Commands ++ [subscribe_call] /\
     AfterPluginUnloadCallbackId w'
       = Some (addStringArrayCallback_id host (history w'))) /\
  (exists w',
     uninitializePlugin mobject host w = (Ok tt, w') /\
     host_calls (history w')
       = host_calls (history w) ++ [MFnPlugin_call mobject]
         ++ match AfterPluginUnloadCallbackId w with
            | Some id => [unsubscribe_call id]
            | None => []
            end
         ++ map deregister_call Commands /\
     AfterPluginUnloadCallbackId w' = None).
Proof.
  split.
  - intros Hacc. unfold initializePlugin.
    destruct (run_register_all host Commands Hacc
                (log w [MFnPlugin_call mobject; Print "LiveLink:"]))
      as [evs [Hrun Hcalls]].
    eexists. rewrite run_bind_call_, run_bind. cbn [emit]. rewrite log_log.
    cbn [app]. rewrite (run_bind_ok _ _ _ _ _ _ Hrun), run_bind_call.
    split; [reflexivity |]. cbn [history log AfterPluginUnloadCallbackId].
    split; [| reflexivity].
    rewrite !host_calls_app, Hcalls. cbn. now rewrite <- !app_assoc.
  - unfold uninitializePlugin. rewrite run_bind_call_, run_bind.
    cbn [get_AfterPluginUnloadCallbackId log AfterPluginUnloadCallbackId].
    destruct (AfterPluginUnloadCallbackId w) as [id |] eqn:Hid.
    + destruct (run_deregister_all host Commands
                  {| history := history w ++ [MFnPlugin_call mobject; unsubscribe_call id];
                     AfterPluginUnloadCallbackId := None |})
        as [w' [Hrun [Hcalls Hnone]]].
      exists w'. rewrite run_bind, run_bind_call_. unfold log.
      cbn [history AfterPluginUnloadCallbackId set_AfterPluginUnloadCallbackId].
      rewrite <- app_assoc. cbn [app]. split; [exact Hrun |].
      split; [| exact Hnone]. rewrite Hcalls. cbn [history].
      rewrite host_calls_app, <- app_assoc. reflexivity.
    + destruct (run_deregister_all host Commands (log w [MFnPlugin_call mobject]))
        as [w' [Hrun [Hcalls Hnone]]].
      exists w'. split; [exact Hrun |].
      split; [| rewrite Hnone; exact Hid]. rewrite Hcalls, history_log.
      rewrite host_calls_app, <- app_assoc. reflexivity.
Qed.

(** The amended C2 on a host that refuses nothing. *)
Lemma plugin_lifecycle_witness :
  exists w',
    initializePlugin (VConst "mobject") (host_of idle) initial_world = (Ok tt, w') /\
    host_calls (history w')
      = host_calls (history initial_world) ++ [MFnPlugin_call (VConst "mobject")]
        ++ map register_call Commands ++ [subscribe_call] /\
    AfterPluginUnloadCallbackId w'
      = Some (addStringArrayCallback_id (host_of idle) (history w')).
Proof.
  exact (proj1 (plugin_lifecycle (host_of idle) initial_world (VConst "mobject"))
           (fun _ _ _ => eq_refl)).
Defined.

(** ** Applying the endpoints of the dialog *)

Lemma elem_of_set_difference a b x :
  x ∈ set_difference a b <-> x ∈ a /\ x ∉ b.
Proof.
  unfold set_difference.
  rewrite elem_of_elements, elem_of_difference, !elem_of_list_to_set. tauto.
Qed.

Lemma NoDup_set_difference a b : NoDup (set_difference a b).
Proof. apply NoDup_elements. Qed.

Lemma set_difference_self a : set_difference a a = [].
Proof.
  unfold set_difference. rewrite difference_diag_L. apply elements_empty.
Qed.

Lemma setters_app h1 h2 : setters (h1 ++ h2) = setters h1 ++ setters h2.
Proof. apply List.filter_app. Qed.

Lemma setters_endpoint_setters U d removed added :
  setters (endpoint_setters U d removed added) = endpoint_setters U d removed added.
Proof.
  unfold endpoint_setters.
  destruct (decide (unicast d = U)), removed, added; reflexivity.
Qed.

Lemma run_ApplyEndpoints host w U S d :
  ApplyEndpoints U S d host w
  = (Ok tt, log w (endpoint_setters U d (set_difference S (static d))
                                        (set_difference (static d) S))).
Proof.
  unfold ApplyEndpoints, endpoint_setters. cbv zeta.
  rewrite run_bind_when_call_. fold (set_unicast (unicast d)).
  replace (if bool_decide (unicast d <> U) then [set_unicast (unicast d)] else [])
    with (if decide (unicast d = U) then [] else [set_unicast (unicast d)])
    by (case_bool_decide; destruct (decide (unicast d = U)); congruence).
  set (first := if decide (unicast d = U) then [] else [set_unicast (unicast d)]).
  case_bool_decide as Hne; cbn [when].
  - rewrite run_bind_when_call_, run_when_call_, !log_log.
    fold (remove_endpoints (set_difference S (static d))).
    fold (add_endpoints (set_difference (static d) S)).
    destruct (set_difference S (static d)), (set_difference (static d) S);
      reflexivity.
  - rewrite Hne, set_difference_self. cbn [app]. now rewrite app_nil_r.
Qed.

Lemma run_CreateUI U S host w :
  exists fields evs, CreateUI U S host w = (Ok fields, log w evs).
Proof.
  unfold CreateUI.
  repeat (rewrite run_bind_call_ || rewrite run_bind_call).
  cbn [mret M_ret]. rewrite !log_log. eauto.
Qed.

(** The dialog ends with the empty text or with the JSON text of a
    dictionary. *)
Lemma layoutDialog_result U S host w result w2 :
  layoutDialog U S host w = (Ok result, w2) ->
  truthy result = true -> exists d, result = JsonDumps d.
Proof.
  unfold layoutDialog. rewrite run_bind_call_.
  destruct (run_CreateUI U S host
              (log w [Call "cmds.layoutDialog" []
                        [("ui", VCallable (Closure_CreateUI U S));
                         ("title", VStr "Set Network Endpoints")]]))
    as [fields [evs Hui]].
  rewrite (run_bind_ok _ _ _ _ _ _ Hui), run_bind_answer.
  destruct (dialog_button host _).
  - intros [= <- _]. discriminate.
  - rewrite run_OnOk. intros [= <- _] _. eauto.
Qed.

Lemma emits_layoutDialog U S :
  emits (fun e => is_setter e = false) (layoutDialog U S).
Proof. unfold layoutDialog, CreateUI, OnCancel, OnOk. emits_tac. Qed.

Lemma setters_none evs :
  Forall (fun e => is_setter e = false) evs -> setters evs = [].
Proof.
  induction 1 as [| e evs He _ IH]; [reflexivity |]. cbn. rewrite He. exact IH.
Qed.

(** C1. When the dialog is confirmed, ShowNetworkEndpointsDialog issues,
    after the dialog, the unicast setter exactly when the new unicast
    endpoint differs from the stored one, one remove-endpoint command
    carrying the elements of (old static minus new static) exactly when
    that difference is non-empty, and one add-endpoint command carrying
    the elements of (new static minus old static) exactly when that
    difference is non-empty; these are the only setter commands of the
    run, and when the new settings equal the stored ones there is none. *)
Theorem endpoints_applied_when_confirmed host w result w2 :
  let UnicastEndpoint := unicastEndpoint host (history w ++ [unicast_query]) in
  let StaticEndpoints :=
    staticEndpoints host (history w ++ [unicast_query; static_query]) in
  layoutDialog UnicastEndpoint StaticEndpoints host
    (log w [unicast_query; static_query]) = (Ok result, w2) ->
  truthy result = true ->
  exists d removed added,
    result = JsonDumps d /\
    (forall x, x ∈ removed <-> x ∈ StaticEndpoints /\ x ∉ static d) /\
    NoDup removed /\
    (forall x, x ∈ added <-> x ∈ static d /\ x ∉ StaticEndpoints) /\
    NoDup added /\
    MayaLiveLinkUI_ShowNetworkEndpointsDialog host w
      = (Ok tt, log w2 (endpoint_setters UnicastEndpoint d removed added)) /\
    setters (history (snd (MayaLiveLinkUI_ShowNetworkEndpointsDialog host w)))
      = setters (history w) ++ endpoint_setters UnicastEndpoint d removed added /\
    (unicast d = UnicastEndpoint -> static d = StaticEndpoints ->
     setters (history (snd (MayaLiveLinkUI_ShowNetworkEndpointsDialog host w)))
       = setters (history w)).
Proof.
  intros U S Hdialog Htrue.
  destruct (layoutDialog_result _ _ _ _ _ _ Hdialog Htrue) as [d ->].
  exists d, (set_difference S (static d)), (set_difference (static d) S).
  assert (Hrun : MayaLiveLinkUI_ShowNetworkEndpointsDialog host w
                 = (Ok tt, log w2 (endpoint_setters U d
                                     (set_difference S (static d))
                                     (set_difference (static d) S)))).
  { unfold MayaLiveLinkUI_ShowNetworkEndpointsDialog.
    rewrite !run_bind_call. fold unicast_query static_query.
    rewrite log_log. cbn [app]. rewrite history_log, <- app_assoc. cbn [app].
    fold U S. rewrite (run_bind_ok _ _ _ _ _ _ Hdialog).
    cbn [truthy when]. rewrite run_bind. cbn [json_loads mret M_ret].
    apply run_ApplyEndpoints. }
  assert (Hset : setters (history w2) = setters (history w)).
  { destruct (emits_layoutDialog U S host (log w [unicast_query; static_query]))
      as [evs [Hh Hall]].
    rewrite Hdialog in Hh. cbn [snd] in Hh.
    rewrite Hh, history_log, !setters_app, (setters_none _ Hall), app_nil_r.
    cbn. now rewrite app_nil_r. }
  split; [reflexivity |].
  split; [apply elem_of_set_difference |]. split; [apply NoDup_set_difference |].
  split; [apply elem_of_set_difference |]. split; [apply NoDup_set_difference |].
  split; [exact Hrun |]. rewrite Hrun. cbn [snd].
  rewrite history_log, setters_app, Hset, setters_endpoint_setters.
  split; [reflexivity |].
  intros Hu Hs. rewrite Hs, set_difference_self. unfold endpoint_setters.
  destruct (decide (unicast d = U)); [| contradiction].
  cbn. now rewrite app_nil_r.
Qed.

(** ** The theorems on concrete hosts *)

(** C1 on [confirming_host]: the dialog is confirmed with
    [confirmed_settings], and the theorem applies. *)
Lemma endpoints_applied_witness :
  let UnicastEndpoint := "0.0.0.0:0" in
  let StaticEndpoints := ["10.0.0.1:6666"; "10.0.0.2:6666"] in
  let w2 := snd (layoutDialog UnicastEndpoint StaticEndpoints confirming_host
                   (log initial_world [unicast_query; static_query])) in
  (layoutDialog UnicastEndpoint StaticEndpoints confirming_host
     (log initial_world [unicast_query; static_query])
   = (Ok (JsonDumps confirmed_settings), w2) /\
   truthy (JsonDumps confirmed_settings) = true) /\
  exists d removed added,
    JsonDumps confirmed_settings = JsonDumps d /\
    (forall x, x ∈ removed <-> x ∈ StaticEndpoints /\ x ∉ static d) /\
    NoDup removed /\
    (forall x, x ∈ added <-> x ∈ static d /\ x ∉ StaticEndpoints) /\
    NoDup added /\
    MayaLiveLinkUI_ShowNetworkEndpointsDialog confirming_host initial_world
      = (Ok tt, log w2 (endpoint_setters UnicastEndpoint d removed added)) /\
    setters (history (snd (MayaLiveLinkUI_ShowNetworkEndpointsDialog
                             confirming_host initial_world)))
      = setters (history initial_world)
        ++ endpoint_setters UnicastEndpoint d removed added /\
    (unicast d = UnicastEndpoint -> static d = StaticEndpoints ->
     setters (history (snd (MayaLiveLinkUI_ShowNetworkEndpointsDialog
                              confirming_host initial_world)))
       = setters (history initial_world)).
Proof.
  cbv zeta. split; [split; reflexivity |].
  exact (endpoints_applied_when_confirmed confirming_host initial_world
           (JsonDumps confirmed_settings)
           (snd (layoutDialog "0.0.0.0:0" ["10.0.0.1:6666"; "10.0.0.2:6666"]
                   confirming_host
                   (log initial_world [unicast_query; static_query])))
           eq_refl eq_refl).
Defined.

(** On [confirming_host] the run issues one unicast setter, one removal
    and one addition. *)
Example confirming_host_setters :
  setters (history (snd (MayaLiveLinkUI_ShowNetworkEndpointsDialog
                           confirming_host initial_world)))
  = [set_unicast "192.168.0.5:7000";
     remove_endpoints ["10.0.0.1:6666"];
     add_endpoints ["10.0.0.3:6666"]].
Proof. vm_compute. reflexivity. Qed.

(** C4 on a camera streamed as "Camera": the third item is selected. *)
Lemma option_menu_of_row_witness :
  exists i,
    ["Root Only"; "Full Hierarchy"; "Camera"] !! i = Some "Camera" /\
    (forall j, j < i ->
       ["Root Only"; "Full Hierarchy"; "Camera"] !! j <> Some "Camera") /\
    SubjectRow 0 "cam" "|cam" "Camera" "Camera" (host_of idle) initial_world
    = (Ok tt,
       log initial_world
         (row_cells 0 "cam" "|cam" "Camera"
          ++ menu_items ["Root Only"; "Full Hierarchy"; "Camera"]
          ++ [menu_select (i + 1)])).
Proof.
  apply (option_menu_of_row (host_of idle) initial_world 0 "cam" "|cam"
           "Camera" "Camera" ["Root Only"; "Full Hierarchy"; "Camera"] eq_refl).
  do 2 apply list_elem_of_further. apply list_elem_of_here.
Defined.

(** C9 on the idle host, which has no window. *)
Lemma no_window_no_ui_call_witness :
  window_exists (host_of idle)
    (history initial_world ++ [window_query WindowName]) WindowName = false /\
  RefreshSubjects (host_of idle) initial_world
  = (Ok tt, log initial_world [window_query WindowName]).
Proof.
  split; [reflexivity |].
  exact (proj1 (proj2 (proj2
    (no_window_no_ui_call (host_of idle) initial_world eq_refl)))).
Defined.

(** C5 on the module itself: the three commands. *)
Lemma Commands_witness :
  GetLiveLinkCommandsFromModule (eval_in module_globals) dir
  = Ok (filter LiveLinkCommandClass (map snd module_globals)).
Proof.
  exact (proj1 (proj2 Commands_are_the_strict_subclasses)
           (eval_in module_globals) dir (map snd module_globals) dir_evaluates).
Defined.

(** * Further properties *)

(** ** The texts of the endpoints dialog *)
Section DialogTexts.
Import PyStr.

Lemma lstrip_idem s : lstrip (lstrip s) = lstrip s.
Proof.
  induction s as [| c s IH]; [reflexivity |].
  cbn [lstrip]. destruct (isspace c) eqn:Hc; [exact IH |].
  cbn [lstrip]. now rewrite Hc.
Qed.

Lemma rstrip_idem s : rstrip (rstrip s) = rstrip s.
Proof.
  induction s as [| c s IH]; [reflexivity |].
  cbn [rstrip]. destruct (isspace c && is_empty (rstrip s)) eqn:Hb; [reflexivity |].
  cbn [rstrip]. now rewrite IH, Hb.
Qed.

Lemma rstrip_lstrip s : rstrip (lstrip s) = lstrip (rstrip s).
Proof.
  induction s as [| c s IH]; [reflexivity |].
  cbn [lstrip rstrip]. destruct (isspace c) eqn:Hc; cbn [andb].
  - rewrite IH. destruct (rstrip s) as [| d r]; cbn [is_empty lstrip]; [reflexivity |].
    now rewrite Hc.
  - cbn [lstrip rstrip]. now rewrite Hc.
Qed.

Lemma strip_idem s : strip (strip s) = strip s.
Proof.
  unfold strip. now rewrite (rstrip_lstrip (rstrip s)), rstrip_idem, lstrip_idem.
Qed.

Lemma count_lstrip c s : count_char c (lstrip s) <= count_char c s.
Proof.
  induction s as [| d s IH]; [reflexivity |].
  cbn [lstrip]. destruct (isspace d); cbn [count_char]; lia.
Qed.

Lemma count_rstrip c s : count_char c (rstrip s) <= count_char c s.
Proof.
  induction s as [| d s IH]; [reflexivity |].
  cbn [rstrip]. destruct (isspace d && is_empty (rstrip s)); cbn [count_char]; lia.
Qed.

Lemma count_strip c s : count_char c (strip s) <= count_char c s.
Proof.
  unfold strip. etransitivity; [apply count_lstrip | apply count_rstrip].
Qed.

Lemma length_split sep s : length (split sep s) = count_char sep s + 1.
Proof.
  induction s as [| c s IH]; [reflexivity |].
  cbn [split count_char]. destruct (Ascii.eqb c sep); cbn [length]; [lia |].
  destruct (split_cons_inv sep s) as [h [t E]]. rewrite E in *. cbn [length] in *. lia.
Qed.

Lemma split_fields_free sep s : Forall (fun e => count_char sep e = 0) (split sep s).
Proof.
  induction s as [| c s IH]; [repeat constructor |].
  cbn [split]. destruct (Ascii.eqb c sep) eqn:Hc; [constructor; [reflexivity | exact IH] |].
  destruct (split_cons_inv sep s) as [h [t E]]. rewrite E in *.
  inversion IH as [| ? ? Hh Ht]; subst. constructor; [| exact Ht].
  cbn [count_char]. now rewrite Hc, Hh.
Qed.

Lemma split_free sep x : count_char sep x = 0 -> split sep x = [x].
Proof.
  induction x as [| c x IH]; [reflexivity |].
  cbn [count_char split]. destruct (Ascii.eqb c sep); [discriminate |].
  intros H. now rewrite (IH H).
Qed.

Lemma split_app_sep sep x rest :
  count_char sep x = 0 ->
  split sep (x +:+ String sep rest) = x :: split sep rest.
Proof.
  induction x as [| c x IH].
  - intros _. change ("" +:+ String sep rest) with (String sep rest).
    cbn [split]. now rewrite Ascii.eqb_refl.
  - change (String c x +:+ String sep rest)
      with (String c (x +:+ String sep rest)).
    cbn [count_char split].
    destruct (Ascii.eqb c sep); [discriminate |]. intros H. now rewrite (IH H).
Qed.

(** Splitting what was joined gives the list back. *)
Lemma split_join sep l :
  l <> [] -> Forall (fun e => count_char sep e = 0) l ->
  split sep (join (String sep "") l) = l.
Proof.
  intros Hne Hall. induction Hall as [| x l Hx Hl IH]; [contradiction |].
  destruct l as [| y l].
  - cbn. now apply split_free.
  - change (join (String sep "") (x :: y :: l))
      with (x +:+ String sep (join (String sep "") (y :: l))).
    rewrite (split_app_sep _ _ _ Hx), IH by discriminate. reflexivity.
Qed.

End DialogTexts.

Section DialogRoundTrip.
Import PyStr.

Lemma OnOk_unicast_keeps U : strip U = U -> U <> "" -> OnOk_unicast U = U.
Proof.
  intros Hs Hne. unfold OnOk_unicast. rewrite Hs.
  destruct U; [contradiction | reflexivity].
Qed.

Lemma OnOk_static_keeps S :
  Forall plain_endpoint S -> S <> [""] -> OnOk_static (join "," S) = S.
Proof.
  intros Hall Hne.
  assert (Hstrip : map strip S = S).
  { clear Hne. induction Hall as [| e S [He _] _ IH]; [reflexivity |].
    cbn [map]. now rewrite He, IH. }
  assert (Hfree : Forall (fun e => count_char "," e = 0) S)
    by (eapply Forall_impl; [exact Hall | intros e [_ He]; exact He]).
  destruct S as [| e S]; [reflexivity |].
  pose proof (split_strip (join "," (e :: S))) as Hsplit.
  rewrite (split_join "," (e :: S)) in Hsplit by (discriminate || exact Hfree).
  rewrite Hstrip in Hsplit. unfold OnOk_static.
  destruct (strip (join "," (e :: S))) eqn:E; [| exact Hsplit].
  cbn in Hsplit. congruence.
Qed.

(** X2. Confirming the dialog without editing it changes nothing: when
    the stored unicast endpoint is non-empty without surrounding
    whitespace, and the stored static endpoints have no surrounding
    whitespace and no comma (and are not the single empty endpoint), the
    Ok handler reads the stored settings back from the texts CreateUI
    showed, and applying them issues no command. *)
Theorem unedited_dialog_changes_nothing host w U S :
  strip U = U -> U <> "" -> Forall plain_endpoint S -> S <> [""] ->
  OnOk_unicast U = U /\
  OnOk_static (join "," S) = S /\
  ApplyEndpoints U S
    {| unicast := OnOk_unicast U; static := OnOk_static (join "," S) |} host w
  = (Ok tt, w).
Proof.
  intros HU HUne HS HSne.
  rewrite (OnOk_unicast_keeps U HU HUne), (OnOk_static_keeps S HS HSne).
  repeat split. rewrite run_ApplyEndpoints. cbn [unicast static].
  rewrite set_difference_self. unfold endpoint_setters. cbn [unicast].
  destruct (decide (U = U)); [| contradiction]. cbn. now rewrite log_nil.
Qed.

Lemma unedited_dialog_witness :
  ApplyEndpoints "0.0.0.0:0" ["10.0.0.1:6666"; "10.0.0.2:6666"]
    {| unicast := OnOk_unicast "0.0.0.0:0";
       static := OnOk_static (join "," ["10.0.0.1:6666"; "10.0.0.2:6666"]) |}
    (host_of idle) initial_world
  = (Ok tt, initial_world).
Proof.
  refine (proj2 (proj2 (unedited_dialog_changes_nothing (host_of idle)
    initial_world "0.0.0.0:0" ["10.0.0.1:6666"; "10.0.0.2:6666"]
    eq_refl _ _ _))).
  - discriminate.
  - repeat constructor.
  - discriminate.
Defined.

(** X3. Whatever the user typed, the unicast endpoint the Ok handler
    hands back is non-empty and has no surrounding whitespace; every
    static endpoint it hands back has no surrounding whitespace and no
    comma; and there is one static endpoint more than there are commas
    in the stripped text (none when that text is empty), so that a
    trailing or doubled comma yields an empty endpoint. *)
Theorem OnOk_normal_form unicast_text static_text :
  OnOk_unicast unicast_text <> "" /\
  strip (OnOk_unicast unicast_text) = OnOk_unicast unicast_text /\
  Forall plain_endpoint (OnOk_static static_text) /\
  length (OnOk_static static_text)
  = (if is_empty (strip static_text) then 0
     else count_char "," (strip static_text) + 1).
Proof.
  split; [| split; [| split]].
  - unfold OnOk_unicast. destruct (strip unicast_text); discriminate.
  - unfold OnOk_unicast. destruct (strip unicast_text) eqn:E; [reflexivity |].
    cbn [is_empty]. rewrite <- E. apply strip_idem.
  - unfold OnOk_static. destruct (is_empty (strip static_text)); [constructor |].
    apply Forall_map.
    eapply Forall_impl; [apply (split_fields_free "," (strip static_text)) |].
    intros e He. split; [apply strip_idem |].
    pose proof (count_strip "," e). cbn beta in *. lia.
  - unfold OnOk_static. destruct (is_empty (strip static_text)); [reflexivity |].
    now rewrite length_map, length_split.
Qed.

End DialogRoundTrip.

(** ** Cancelling the endpoints dialog *)

Lemma layoutDialog_cancelled U S host w :
  (forall h, dialog_button host h = ButtonCancel) ->
  exists w2,
    layoutDialog U S host w = (Ok (Literal ""), w2) /\
    last (history w2) = Some (Call "cmds.layoutDialog" [] [("dismiss", VStr "")]).
Proof.
  intros Hcancel. unfold layoutDialog. rewrite run_bind_call_.
  destruct (run_CreateUI U S host
              (log w [Call "cmds.layoutDialog" []
                        [("ui", VCallable (Closure_CreateUI U S));
                         ("title", VStr "Set Network Endpoints")]]))
    as [fields [evs Hui]].
  rewrite (run_bind_ok _ _ _ _ _ _ Hui), run_bind_answer, Hcancel.
  eexists. split; [reflexivity |].
  cbn [history log]. now rewrite last_app.
Qed.

(** X1. When the user cancels the endpoints dialog,
    ShowNetworkEndpointsDialog returns normally right after the dialog is
    dismissed with the empty text: nothing is parsed, and no setter
    command is issued. *)
Theorem cancelled_dialog_changes_nothing host w :
  (forall h, dialog_button host h = ButtonCancel) ->
  exists w',
    MayaLiveLinkUI_ShowNetworkEndpointsDialog host w = (Ok tt, w') /\
    last (history w') = Some (Call "cmds.layoutDialog" [] [("dismiss", VStr "")]) /\
    setters (history w') = setters (history w).
Proof.
  intros Hcancel. unfold MayaLiveLinkUI_ShowNetworkEndpointsDialog.
  rewrite !run_bind_call. fold unicast_query static_query.
  set (U := unicastEndpoint host _). set (S := staticEndpoints host _).
  destruct (layoutDialog_cancelled U S host
              (log (log w [unicast_query]) [static_query]) Hcancel)
    as [w2 [Hrun Hlast]].
  exists w2. rewrite (run_bind_ok _ _ _ _ _ _ Hrun). cbn [truthy PyStr.is_empty negb when].
  split; [reflexivity |]. split; [exact Hlast |].
  destruct (emits_layoutDialog U S host (log (log w [unicast_query]) [static_query]))
    as [evs [Hh Hall]].
  rewrite Hrun in Hh. cbn [snd] in Hh.
  rewrite Hh, !history_log, !setters_app, (setters_none _ Hall). cbn.
  now rewrite !app_nil_r.
Qed.

Lemma cancelled_dialog_witness :
  exists w',
    MayaLiveLinkUI_ShowNetworkEndpointsDialog (host_of idle) initial_world
      = (Ok tt, w') /\
    last (history w') = Some (Call "cmds.layoutDialog" [] [("dismiss", VStr "")]) /\
    setters (history w') = setters (history initial_world).
Proof.
  exact (cancelled_dialog_changes_nothing (host_of idle) initial_world
           (fun _ => eq_refl)).
Defined.

(** ** A refused registration, and loading followed by unloading *)

Lemma run_register_one host w c :
  register_one c host w =
  if registerCommand_refused host
       (history w ++ [Print (tab +:+ "Registering Command '" +:+ __name__ c +:+ "'");
                      register_call c]) (__name__ c)
  then (Raise RuntimeError,
        log w [Print (tab +:+ "Registering Command '" +:+ __name__ c +:+ "'");
               register_call c; register_failure c])
  else (Ok tt,
        log w [Print (tab +:+ "Registering Command '" +:+ __name__ c +:+ "'");
               register_call c]).
Proof.
  unfold register_one, try_except, registerCommand.
  rewrite run_bind. cbn [emit]. rewrite run_bind_call.
  cbn [history log]. rewrite <- app_assoc. cbn [app].
  fold (register_call c).
  destruct (registerCommand_refused host _ _).
  - cbn [raise]. rewrite run_bind. cbn [emit raise]. rewrite !log_log. reflexivity.
  - cbn [mret M_ret]. rewrite log_log. reflexivity.
Qed.

(** The loop of [initializePlugin] on any host: it registers everything,
    or stops at the first refusal after reporting it. *)
Lemma run_register_loop host (cmds : list Class) :
  forall w, exists evs,
    snd (for_each cmds register_one host w) = log w evs /\
    ((fst (for_each cmds register_one host w) = Ok tt /\
      host_calls evs = map register_call cmds) \/
     (exists done c rest,
        cmds = done ++ c :: rest /\
        fst (for_each cmds register_one host w) = Raise RuntimeError /\
        host_calls evs = map register_call (done ++ [c]) /\
        last evs = Some (register_failure c))).
Proof.
  induction cmds as [| c cmds IH]; intros w.
  - exists []. cbn. rewrite log_nil. auto.
  - cbn [for_each]. rewrite run_bind, run_register_one.
    destruct (registerCommand_refused host _ _).
    + eexists. split; [reflexivity |]. right. exists [], c, cmds.
      repeat split.
    + set (p := Print _).
      destruct (IH (log w [p; register_call c]))
        as [evs [Hsnd [[Hok Hcalls] | (done & c' & rest & -> & Hr & Hcalls & Hlast)]]].
      * exists ([p; register_call c] ++ evs). rewrite Hsnd, log_log.
        split; [reflexivity |]. left. split; [exact Hok |].
        rewrite host_calls_app, Hcalls. reflexivity.
      * exists ([p; register_call c] ++ evs). rewrite Hsnd, log_log.
        split; [reflexivity |]. right. exists (c :: done), c', rest.
        repeat split; [exact Hr | |].
        -- rewrite host_calls_app, Hcalls. reflexivity.
        -- rewrite last_app, Hlast. reflexivity.
Qed.

(** X4. When initializePlugin raises, the error is the host's refusal of
    one registration: the classes before the refused one were registered
    in order, the refusal was reported on stderr as the last thing done,
    no later class was tried, no scene callback was subscribed and the
    stored callback id is untouched. *)
Theorem initializePlugin_failure host w mobject e :
  fst (initializePlugin mobject host w) = Raise e ->
  e = RuntimeError /\
  exists done c rest,
    Commands = done ++ c :: rest /\
    host_calls (history (snd (initializePlugin mobject host w)))
      = host_calls (history w) ++ MFnPlugin_call mobject
        :: map register_call (done ++ [c]) /\
    last (history (snd (initializePlugin mobject host w)))
      = Some (register_failure c) /\
    AfterPluginUnloadCallbackId (snd (initializePlugin mobject host w))
      = AfterPluginUnloadCallbackId w.
Proof.
  unfold initializePlugin. rewrite run_bind_call_, run_bind. cbn [emit].
  rewrite log_log. cbn [app]. rewrite run_bind.
  destruct (run_register_loop host Commands
              (log w [Call "OpenMayaMPx.MFnPlugin" [mobject] []; Print "LiveLink:"]))
    as [evs [Hsnd Hcases]].
  destruct (for_each Commands register_one host _) as [[[] | e'] w1];
    cbn [fst snd] in *.
  - rewrite run_bind_call. cbn [set_AfterPluginUnloadCallbackId fst]. discriminate.
  - intros [= <-].
    destruct Hcases as [[Hok _] | (done & c & rest & HC & Hr & Hcalls & Hlast)];
      [discriminate |].
    injection Hr as ->. split; [reflexivity |]. exists done, c, rest.
    subst w1. split; [exact HC |]. cbn [history log AfterPluginUnloadCallbackId].
    repeat split.
    + rewrite <- app_assoc, !host_calls_app, Hcalls. reflexivity.
    + rewrite last_app, Hlast. reflexivity.
Qed.

Lemma initializePlugin_failure_witness :
  RuntimeError = RuntimeError /\
  exists done c rest,
    Commands = done ++ c :: rest /\
    host_calls (history (snd (initializePlugin (VConst "mobject") refusing_host
                                initial_world)))
      = host_calls (history initial_world) ++ MFnPlugin_call (VConst "mobject")
        :: map register_call (done ++ [c]) /\
    last (history (snd (initializePlugin (VConst "mobject") refusing_host
                          initial_world)))
      = Some (register_failure c) /\
    AfterPluginUnloadCallbackId
      (snd (initializePlugin (VConst "mobject") refusing_host initial_world))
      = AfterPluginUnloadCallbackId initial_world.
Proof.
  exact (initializePlugin_failure refusing_host initial_world (VConst "mobject")
           RuntimeError eq_refl).
Defined.

Lemma run_initializePlugin_accepted host w mobject :
  (forall h c, c ∈ Commands ->
     registerCommand_refused host h (__name__ c) = false) ->
  exists w1 id,
    initializePlugin mobject host w = (Ok tt, w1) /\
    AfterPluginUnloadCallbackId w1 = Some id /\
    host_calls (history w1)
      = host_calls (history w) ++ [MFnPlugin_call mobject]
        ++ map register_call Commands ++ [subscribe_call].
Proof.
  intros Hacc. unfold initializePlugin.
  destruct (run_register_all host Commands Hacc
              (log w [MFnPlugin_call mobject; Print "LiveLink:"]))
    as [evs [Hrun Hcalls]].
  eexists _, _. rewrite run_bind_call_, run_bind. cbn [emit]. rewrite log_log.
  cbn [app]. rewrite (run_bind_ok _ _ _ _ _ _ Hrun), run_bind_call.
  split; [reflexivity |]. cbn [history log AfterPluginUnloadCallbackId].
  split; [reflexivity |].
  rewrite !host_calls_app, Hcalls. cbn. now rewrite <- !app_assoc.
Qed.

Lemma run_uninitializePlugin_subscribed host w mobject id :
  AfterPluginUnloadCallbackId w = Some id ->
  exists w2,
    uninitializePlugin mobject host w = (Ok tt, w2) /\
    AfterPluginUnloadCallbackId w2 = None /\
    host_calls (history w2)
      = host_calls (history w) ++ [MFnPlugin_call mobject; unsubscribe_call id]
        ++ map deregister_call Commands.
Proof.
  intros Hid. unfold uninitializePlugin. rewrite run_bind_call_, run_bind.
  cbn [get_AfterPluginUnloadCallbackId log AfterPluginUnloadCallbackId].
  rewrite Hid.
  destruct (run_deregister_all host Commands
              {| history := history w ++ [MFnPlugin_call mobject; unsubscribe_call id];
                 AfterPluginUnloadCallbackId := None |})
    as [w2 [Hrun [Hcalls Hnone]]].
  exists w2. rewrite run_bind, run_bind_call_. unfold log.
  cbn [history AfterPluginUnloadCallbackId set_AfterPluginUnloadCallbackId].
  rewrite <- app_assoc. cbn [app]. split; [exact Hrun |].
  split; [exact Hnone |]. rewrite Hcalls. cbn [history].
  rewrite host_calls_app, <- app_assoc. reflexivity.
Qed.

(** X5. Loading then unloading undoes the load: on a host that refuses
    no registration, uninitializePlugin run after initializePlugin
    removes exactly the callback initializePlugin subscribed (by the id
    the host gave for it), leaves no stored id, and asks to deregister
    the same classes, in the same order, that were registered. *)
Theorem load_then_unload host w mobject :
  (forall h c, c ∈ Commands ->
     registerCommand_refused host h (__name__ c) = false) ->
  exists w1 id w2,
    initializePlugin mobject host w = (Ok tt, w1) /\
    AfterPluginUnloadCallbackId w1 = Some id /\
    uninitializePlugin mobject host w1 = (Ok tt, w2) /\
    AfterPluginUnloadCallbackId w2 = None /\
    host_calls (history w2)
      = host_calls (history w)
        ++ [MFnPlugin_call mobject] ++ map register_call Commands
        ++ [subscribe_call]
        ++ [MFnPlugin_call mobject; unsubscribe_call id]
        ++ map deregister_call Commands.
Proof.
  intros Hacc.
  destruct (run_initializePlugin_accepted host w mobject Hacc)
    as (w1 & id & Hinit & Hid & Hcalls1).
  destruct (run_uninitializePlugin_subscribed host w1 mobject id Hid)
    as (w2 & Huninit & Hnone & Hcalls2).
  exists w1, id, w2. repeat split; try assumption.
  rewrite Hcalls2, Hcalls1, <- !app_assoc. reflexivity.
Qed.

Lemma load_then_unload_witness :
  exists w1 id w2,
    initializePlugin (VConst "mobject") (host_of idle) initial_world = (Ok tt, w1) /\
    AfterPluginUnloadCallbackId w1 = Some id /\
    uninitializePlugin (VConst "mobject") (host_of idle) w1 = (Ok tt, w2) /\
    AfterPluginUnloadCallbackId w2 = None /\
    host_calls (history w2)
      = host_calls (history initial_world)
        ++ [MFnPlugin_call (VConst "mobject")] ++ map register_call Commands
        ++ [subscribe_call]
        ++ [MFnPlugin_call (VConst "mobject"); unsubscribe_call id]
        ++ map deregister_call Commands.
Proof.
  exact (load_then_unload (host_of idle) initial_world (VConst "mobject")
           (fun _ _ _ => eq_refl)).
Defined.

(** ** Rows that cannot be shown *)

Lemma index_of_None x l : x ∉ l -> index_of x l = None.
Proof.
  intros Hnin. destruct (index_of x l) as [i |] eqn:E; [| reflexivity].
  destruct (index_of_Some _ _ _ E) as [Hi _]. exfalso. apply Hnin.
  apply list_elem_of_lookup. eauto.
Qed.

Lemma run_SubjectRow_KeyError host w k n p t r :
  StreamTypesPerSubjectType !! t = None ->
  SubjectRow k n p t r host w = (Raise (KeyError t), log w (row_cells k n p t)).
Proof.
  intros Hnone. unfold SubjectRow. rewrite !run_bind_call_.
  rewrite run_bind. unfold getitem. rewrite Hnone. cbn [raise].
  rewrite !log_log. reflexivity.
Qed.

Lemma run_SubjectRow_ValueError host w k n p t r l :
  StreamTypesPerSubjectType !! t = Some l ->
  index_of r l = None ->
  SubjectRow k n p t r host w
  = (Raise ValueError, log w (row_cells k n p t ++ menu_items l)).
Proof.
  intros Hl Hi. unfold SubjectRow. rewrite !run_bind_call_.
  rewrite (run_bind_ok _ _ _ _ _ _ (run_getitem _ _ _ _ _ Hl)).
  rewrite (run_bind_ok _ _ _ _ _ _
             (run_for_each_call_ l
                (fun s => Call "cmds.menuItem" [] [("label", VStr s)])
                _ _ _ (fun _ _ _ => eq_refl))).
  rewrite (run_bind_ok _ _ _ _ _ _ (run_getitem _ _ _ _ _ Hl)).
  unfold list_index. rewrite Hi. rewrite run_bind. cbn [raise].
  rewrite !log_log. reflexivity.
Qed.

Lemma selections_app h1 h2 : selections (h1 ++ h2) = selections h1 ++ selections h2.
Proof. apply List.filter_app. Qed.

Lemma selections_menu_items l : selections (menu_items l) = [].
Proof. induction l as [| x l IH]; [reflexivity | exact IH]. Qed.

Lemma table_cells_app h1 h2 :
  table_cells (h1 ++ h2) = table_cells h1 ++ table_cells h2.
Proof. apply List.filter_app. Qed.

Lemma table_cells_menu_items l : table_cells (menu_items l) = [].
Proof. induction l as [| x l IH]; [reflexivity | exact IH]. Qed.

Lemma table_cells_row_cells k n p t : length (table_cells (row_cells k n p t)) = 5.
Proof. reflexivity. Qed.

(** What one row adds, in each of its three outcomes. *)
Lemma SubjectRow_outcome host w k n p t r :
  exists evs,
    snd (SubjectRow k n p t r host w) = log w (row_cells k n p t ++ evs) /\
    created_rows evs = [] /\ table_cells evs = [] /\
    ((valid_row (n, p, t, r) /\ fst (SubjectRow k n p t r host w) = Ok tt /\
      length (selections evs) = 1) \/
     (~ valid_row (n, p, t, r) /\
      fst (SubjectRow k n p t r host w) = Raise (row_error t) /\
      selections evs = [])).
Proof.
  unfold row_error, valid_row.
  destruct (StreamTypesPerSubjectType !! t) as [l |] eqn:Hl.
  - destruct (index_of r l) as [i |] eqn:Hi.
    + exists (menu_items l ++ [menu_select (i + 1)]).
      rewrite (run_SubjectRow host w k n p t r l i Hl Hi). cbn [fst snd].
      rewrite created_rows_app, table_cells_app, selections_app,
        created_rows_menu_items, table_cells_menu_items, selections_menu_items.
      repeat split. left. repeat split.
      exists l. split; [reflexivity |].
      destruct (index_of_Some _ _ _ Hi) as [Hat _].
      apply list_elem_of_lookup. eauto.
    + exists (menu_items l).
      rewrite (run_SubjectRow_ValueError host w k n p t r l Hl Hi). cbn [fst snd].
      rewrite created_rows_menu_items, table_cells_menu_items, selections_menu_items.
      repeat split. right. repeat split.
      intros [l' [[= <-] Hin]]. destruct (index_of_elem _ _ Hin) as [i Hi'].
      congruence.
  - exists []. rewrite (run_SubjectRow_KeyError host w k n p t r Hl). cbn [fst snd].
    rewrite app_nil_r. repeat split. right. repeat split.
    intros [l' [[=] _]].
Qed.

Lemma created_rows_row_cells k n p t : created_rows (row_cells k n p t) = [LayoutName k].
Proof. reflexivity. Qed.

Lemma selections_row_cells k n p t : selections (row_cells k n p t) = [].
Proof. reflexivity. Qed.

Lemma run_SubjectRows_cons host w k n p t r rows :
  SubjectRows k ((n, p, t, r) :: rows) host w =
  match SubjectRow k n p t r host w with
  | (Ok _, w1) => SubjectRows (k + 1) rows host w1
  | (Raise e, w1) => (Raise e, w1)
  end.
Proof. reflexivity. Qed.

Lemma SubjectRows_cells host rows :
  forall k w, exists evs,
    snd (SubjectRows k rows host w) = log w evs /\
    length (table_cells evs) = 5 * length (created_rows evs).
Proof.
  induction rows as [| [[[n p] t] r] rows IH]; intros k w.
  - exists []. cbn. now rewrite log_nil.
  - rewrite run_SubjectRows_cons.
    destruct (SubjectRow_outcome host w k n p t r) as (evs1 & Hsnd & Hrows & Hcells & _).
    destruct (SubjectRow k n p t r host w) as [[[] | e] w1]; cbn [snd] in Hsnd; subst w1.
    + destruct (IH (k + 1) (log w (row_cells k n p t ++ evs1))) as (evs & Hs & Hlen).
      exists ((row_cells k n p t ++ evs1) ++ evs). rewrite Hs, log_log.
      split; [reflexivity |].
      rewrite !table_cells_app, !created_rows_app, !length_app, Hcells, Hrows,
        created_rows_row_cells, table_cells_row_cells, Hlen. cbn [length]. lia.
    + exists (row_cells k n p t ++ evs1). split; [reflexivity |].
      rewrite !table_cells_app, !created_rows_app, !length_app, Hcells, Hrows,
        created_rows_row_cells, table_cells_row_cells. reflexivity.
Qed.

Lemma SubjectRows_first_invalid host good n p t r rest :
  Forall valid_row good -> ~ valid_row (n, p, t, r) ->
  forall k w, exists evs,
    SubjectRows k (good ++ (n, p, t, r) :: rest) host w
      = (Raise (row_error t), log w evs) /\
    created_rows evs = map LayoutName (seq k (length good + 1)) /\
    length (selections evs) = length good.
Proof.
  intros Hgood Hbad.
  induction Hgood as [| [[[n' p'] t'] r'] good Hg _ IH]; intros k w.
  - cbn [app]. rewrite run_SubjectRows_cons.
    destruct (SubjectRow_outcome host w k n p t r)
      as (evs1 & Hsnd & Hrows & _ & [[Hv _] | (_ & Hfst & Hsel)]); [contradiction |].
    destruct (SubjectRow k n p t r host w) as [res w1]; cbn [fst snd] in *. subst.
    exists (row_cells k n p t ++ evs1). split; [reflexivity |].
    rewrite created_rows_app, selections_app, Hrows, Hsel. split; reflexivity.
  - cbn [app]. rewrite run_SubjectRows_cons.
    destruct (SubjectRow_outcome host w k n' p' t' r')
      as (evs1 & Hsnd & Hrows & _ & [(_ & Hfst & Hsel) | [Hnv _]]); [| contradiction].
    destruct (SubjectRow k n' p' t' r' host w) as [res w1]; cbn [fst snd] in *. subst.
    destruct (IH (k + 1) (log w (row_cells k n' p' t' ++ evs1))) as (evs & Hrun & Hcr & Hs).
    exists ((row_cells k n' p' t' ++ evs1) ++ evs). rewrite Hrun, log_log.
    split; [reflexivity |].
    rewrite !created_rows_app, !selections_app, !length_app, Hrows, Hcr, Hs,
      created_rows_row_cells, selections_row_cells.
    cbn [length seq map app]. rewrite Nat.add_1_r. split; [reflexivity | lia].
Qed.

(** X6. PopulateSubjects stops at the first subject it cannot show: when
    the zipped rows are some showable rows followed by one whose type is
    not in the table or whose role is not a stream type of its type, it
    raises KeyError for that type (unknown type) or ValueError (unknown
    role), having created the rows before it and the cells of the
    offending row itself, whose option menu is left without a selection;
    the rows after it are never created. *)
Theorem PopulateSubjects_first_invalid_row host w names paths types roles
    good n p t r rest :
  LiveLinkSubjectNames host (history w ++ [SubjectNames_query]) = Some names ->
  LiveLinkSubjectPaths host
    (history w ++ [SubjectNames_query; SubjectPaths_query]) = Some paths ->
  LiveLinkSubjectTypes host
    (history w ++ [SubjectNames_query; SubjectPaths_query; SubjectTypes_query])
    = Some types ->
  LiveLinkSubjectRoles host
    (history w ++ [SubjectNames_query; SubjectPaths_query; SubjectTypes_query;
                   SubjectRoles_query]) = Some roles ->
  zip4 names paths types roles = good ++ (n, p, t, r) :: rest ->
  Forall valid_row good -> ~ valid_row (n, p, t, r) ->
  fst (PopulateSubjects host w) = Raise (row_error t) /\
  created_rows (history (snd (PopulateSubjects host w)))
    = created_rows (history w) ++ map LayoutName (seq 0 (length good + 1)) /\
  length (selections (history (snd (PopulateSubjects host w))))
    = length (selections (history w)) + length good.
Proof.
  intros Hn Hp Ht Hr Hzip Hgood Hbad.
  pose proof (run_PopulateSubjects host w) as Hrun. cbv zeta in Hrun.
  rewrite Hn, Hp, Ht, Hr, Hzip in Hrun.
  destruct (SubjectRows_first_invalid host good n p t r rest Hgood Hbad 0
              (log w [SubjectNames_query; SubjectPaths_query;
                      SubjectTypes_query; SubjectRoles_query]))
    as (evs & Hrows & Hcr & Hsel).
  rewrite Hrun, Hrows. cbn [fst snd]. split; [reflexivity |].
  rewrite log_log, history_log, !created_rows_app, !selections_app, !length_app,
    Hcr, Hsel.
  split; reflexivity.
Qed.

Lemma PopulateSubjects_first_invalid_row_witness :
  fst (PopulateSubjects
         (host_with_subjects (Some ["cube"; "cam"; "sun"])
            (Some ["|cube"; "|cam"; "|sun"])
            (Some ["Prop"; "Camera"; "Light"])
            (Some ["Root Only"; "Light"; "Light"]))
         initial_world) = Raise ValueError.
Proof.
  refine (proj1 (PopulateSubjects_first_invalid_row
    (host_with_subjects (Some ["cube"; "cam"; "sun"])
       (Some ["|cube"; "|cam"; "|sun"]) (Some ["Prop"; "Camera"; "Light"])
       (Some ["Root Only"; "Light"; "Light"]))
    initial_world ["cube"; "cam"; "sun"] ["|cube"; "|cam"; "|sun"]
    ["Prop"; "Camera"; "Light"] ["Root Only"; "Light"; "Light"]
    [("cube", "|cube", "Prop", "Root Only")] "cam" "|cam" "Camera" "Light"
    [("sun", "|sun", "Light", "Light")]
    eq_refl eq_refl eq_refl eq_refl eq_refl _ _)).
  - repeat constructor. eexists. split; [reflexivity |]. apply list_elem_of_here.
  - intros [l [[= <-] Hin]].
    repeat (apply elem_of_cons in Hin as [Hin | Hin]; [discriminate |]).
    now apply elem_of_nil in Hin.
Defined.

(** X7. When the paths query answers a list but one of the three other
    queries answers None, PopulateSubjects raises TypeError from the zip
    before any row: its four queries are the only host calls it made. *)
Theorem PopulateSubjects_partial_answers host w paths :
  LiveLinkSubjectPaths host
    (history w ++ [SubjectNames_query; SubjectPaths_query]) = Some paths ->
  LiveLinkSubjectNames host (history w ++ [SubjectNames_query]) = None \/
  LiveLinkSubjectTypes host
    (history w ++ [SubjectNames_query; SubjectPaths_query; SubjectTypes_query])
    = None \/
  LiveLinkSubjectRoles host
    (history w ++ [SubjectNames_query; SubjectPaths_query; SubjectTypes_query;
                   SubjectRoles_query]) = None ->
  PopulateSubjects host w
  = (Raise TypeError,
     log w [SubjectNames_query; SubjectPaths_query; SubjectTypes_query;
            SubjectRoles_query]).
Proof.
  intros Hp Hnone. pose proof (run_PopulateSubjects host w) as Hrun.
  cbv zeta in Hrun. rewrite Hp in Hrun. rewrite Hrun.
  destruct Hnone as [-> | [-> | ->]]; [reflexivity | |].
  - destruct (LiveLinkSubjectNames host _); reflexivity.
  - destruct (LiveLinkSubjectNames host _); [| reflexivity].
    destruct (LiveLinkSubjectTypes host _); reflexivity.
Qed.

Lemma PopulateSubjects_partial_answers_witness :
  PopulateSubjects (host_with_subjects None (Some ["|cube"]) None None) initial_world
  = (Raise TypeError,
     log initial_world [SubjectNames_query; SubjectPaths_query; SubjectTypes_query;
                        SubjectRoles_query]).
Proof.
  exact (PopulateSubjects_partial_answers
           (host_with_subjects None (Some ["|cube"]) None None) initial_world
           ["|cube"] eq_refl (or_introl eq_refl)).
Defined.

(** X8. Whatever the host answers, and also when it raises,
    PopulateSubjects puts exactly five cells into the subject table for
    every row it creates: the five columns of the table never get out of
    step. *)
Theorem PopulateSubjects_five_cells_per_row host w :
  length (table_cells (history (snd (PopulateSubjects host w))))
    + 5 * length (created_rows (history w))
  = length (table_cells (history w))
    + 5 * length (created_rows (history (snd (PopulateSubjects host w)))).
Proof.
  pose proof (run_PopulateSubjects host w) as Hrun. cbv zeta in Hrun.
  assert (Hq : forall evs,
             length (table_cells evs) = 5 * length (created_rows evs) ->
             length (table_cells
                       (history (log w ([SubjectNames_query; SubjectPaths_query;
                                         SubjectTypes_query; SubjectRoles_query]
                                        ++ evs))))
               + 5 * length (created_rows (history w))
             = length (table_cells (history w))
               + 5 * length (created_rows
                       (history (log w ([SubjectNames_query; SubjectPaths_query;
                                         SubjectTypes_query; SubjectRoles_query]
                                        ++ evs))))).
  { intros evs Hlen. rewrite history_log, !table_cells_app, !created_rows_app,
      !length_app, Hlen. cbn [table_cells created_rows omap List.filter length].
    cbn. lia. }
  rewrite Hrun.
  destruct (LiveLinkSubjectPaths host _) as [paths |];
    [| cbn [snd]; rewrite <- (app_nil_r [_; _; _; _]); now apply Hq].
  destruct (LiveLinkSubjectNames host _) as [names |];
    [| cbn [snd]; rewrite <- (app_nil_r [_; _; _; _]); now apply Hq].
  destruct (LiveLinkSubjectTypes host _) as [types |];
    [| cbn [snd]; rewrite <- (app_nil_r [_; _; _; _]); now apply Hq].
  destruct (LiveLinkSubjectRoles host _) as [roles |];
    [| cbn [snd]; rewrite <- (app_nil_r [_; _; _; _]); now apply Hq].
  destruct (SubjectRows_cells host (zip4 names paths types roles) 0
              (log w [SubjectNames_query; SubjectPaths_query;
                      SubjectTypes_query; SubjectRoles_query]))
    as (evs & Hsnd & Hlen).
  rewrite Hsnd, log_log. now apply Hq.
Qed.

(** ** The host functions a computation calls *)

Lemma emits_impl (P Q : Event -> Prop) {A} (m : M A) :
  (forall e, P e -> Q e) -> emits P m -> emits Q m.
Proof.
  intros HPQ Hm host w. destruct (Hm host w) as [evs [Hh Hall]].
  exists evs. split; [exact Hh |]. eapply Forall_impl; eauto.
Qed.

Lemma uses_no_call_to fns fn e :
  existsb (String.eqb fn) fns = false -> uses fns e = true -> no_call_to fn e.
Proof.
  intros Hfn. destruct e as [f args kwargs | |]; cbn; try reflexivity.
  intros Hf. unfold no_call_to. cbn. destruct (String.eqb_spec f fn) as [-> | _];
    [congruence | reflexivity].
Qed.

Lemma emits_CreateSubjectTable_calls :
  emits (fun e => uses CreateSubjectTable_calls e = true) CreateSubjectTable.
Proof. unfold CreateSubjectTable, cmds_window_exists. emits_tac. Qed.

Lemma emits_SubjectRows_calls rows :
  forall k, emits (fun e => uses PopulateSubjects_calls e = true) (SubjectRows k rows).
Proof.
  induction rows as [| [[[n p] t] r] rows IH]; intros k; cbn [SubjectRows].
  - apply emits_ret.
  - apply emits_bind; [unfold SubjectRow; emits_tac | intros _; apply IH].
Qed.

Lemma emits_PopulateSubjects_calls :
  emits (fun e => uses PopulateSubjects_calls e = true) PopulateSubjects.
Proof.
  unfold PopulateSubjects. pose proof emits_SubjectRows_calls. emits_tac.
Qed.

Lemma CreateSubjectTable_returns host w : fst (CreateSubjectTable host w) = Ok tt.
Proof.
  unfold CreateSubjectTable. rewrite run_bind, run_window_exists.
  destruct (window_exists host _ _); reflexivity.
Qed.

Lemma ClearSubjects_returns host w : fst (ClearSubjects host w) = Ok tt.
Proof.
  unfold ClearSubjects. rewrite run_bind, run_window_exists.
  destruct (window_exists host _ _); reflexivity.
Qed.

(** X10. The scene callback runs after a plugin was unloaded, possibly
    the native plugin itself: whatever the strings it receives and
    whatever the host answers, AfterPluginUnloadCallback returns
    normally and calls no command of the native plugin. *)
Theorem AfterPluginUnloadCallback_is_safe stringArray clientData host w :
  fst (AfterPluginUnloadCallback stringArray clientData host w) = Ok tt /\
  exists evs,
    history (snd (AfterPluginUnloadCallback stringArray clientData host w))
      = history w ++ evs /\
    Forall (fun e => is_native e = false) evs.
Proof.
  rewrite AfterPluginUnloadCallback_unfold.
  destruct (existsb _ stringArray).
  - split.
    + rewrite run_bind. pose proof (ClearSubjects_returns host w) as Hc.
      destruct (ClearSubjects host w) as [[[] | e] w1]; cbn [fst] in Hc;
        [apply CreateSubjectTable_returns | discriminate].
    + assert (Hm : emits (fun e => is_native e = false)
                     (ClearSubjects ;; CreateSubjectTable))
        by (unfold ClearSubjects, CreateSubjectTable, cmds_window_exists; emits_tac).
      apply Hm.
  - split; [reflexivity |]. exists []. cbn. now rewrite app_nil_r.
Qed.

(** ** Opening the window *)

Lemma emits_table_and_rows fn :
  existsb (String.eqb fn) CreateSubjectTable_calls = false ->
  existsb (String.eqb fn) PopulateSubjects_calls = false ->
  emits (no_call_to fn) CreateSubjectTable /\ emits (no_call_to fn) PopulateSubjects.
Proof.
  intros Ht Hp. split.
  - eapply emits_impl; [| apply emits_CreateSubjectTable_calls].
    intros e. now apply uses_no_call_to.
  - eapply emits_impl; [| apply emits_PopulateSubjects_calls].
    intros e. now apply uses_no_call_to.
Qed.

(** X9. MayaLiveLinkUI.doIt deletes the window first exactly when it
    already exists: the deletion comes right after the existence query
    and before the creation of the new window, and nothing is deleted
    after that.  When doIt returns normally the last thing it did is to
    show the window; when it raises (a subject that cannot be shown, see
    X6 and X7) the window it has created is never shown. *)
Theorem doIt_shows_the_window_last host w :
  (fst (MayaLiveLinkUI_doIt host w) = Ok tt ->
   last (history (snd (MayaLiveLinkUI_doIt host w))) = Some showWindow_call) /\
  (fst (MayaLiveLinkUI_doIt host w) <> Ok tt ->
   calls_to "cmds.showWindow" (history (snd (MayaLiveLinkUI_doIt host w)))
   = calls_to "cmds.showWindow" (history w)) /\
  calls_to "cmds.deleteUI" (history (snd (MayaLiveLinkUI_doIt host w)))
  = calls_to "cmds.deleteUI" (history w)
    ++ (if window_exists host (history w ++ [window_query WindowName]) WindowName
        then [deleteWindow_call] else []) /\
  exists rest,
    history (snd (MayaLiveLinkUI_doIt host w))
    = history w
      ++ window_query WindowName
         :: (if window_exists host (history w ++ [window_query WindowName])
                  WindowName
             then [deleteWindow_call] else [])
         ++ createWindow_call :: rest /\
    calls_to "cmds.deleteUI" rest = [].
Proof.
  destruct (emits_table_and_rows "cmds.showWindow" eq_refl eq_refl) as [HTs HPs].
  destruct (emits_table_and_rows "cmds.deleteUI" eq_refl eq_refl) as [HTd HPd].
  unfold MayaLiveLinkUI_doIt.
  rewrite run_bind, run_window_exists.
  set (b := window_exists host _ _).
  rewrite run_bind_when_call_, run_bind_call_, run_bind_call.
  rewrite !run_bind_call_. rewrite !log_log. rewrite <- ?app_assoc. cbn [app].
  fold deleteWindow_call.
  change (Call "cmds.window" [VStr WindowName]
            [("title", VStr Title); ("menuBar", VBool true);
             ("widthHeight", VTuple [VInt WindowSize.1; VInt WindowSize.2])])
    with createWindow_call.
  match goal with
  | |- context [log w (_ :: _ ++ createWindow_call :: ?tl)] => set (setup := tl)
  end.
  assert (Hsetup : calls_to "cmds.deleteUI" setup = []) by reflexivity.
  set (W := log w _).
  assert (HW : history W
               = history w
                 ++ window_query WindowName
                    :: (if b then [deleteWindow_call] else [])
                    ++ createWindow_call :: setup) by reflexivity.
  assert (HWs : calls_to "cmds.showWindow" (history W)
                = calls_to "cmds.showWindow" (history w)).
  { rewrite HW, calls_to_app. destruct b; cbn; now rewrite app_nil_r. }
  assert (HWd : calls_to "cmds.deleteUI" (history W)
                = calls_to "cmds.deleteUI" (history w)
                  ++ (if b then [deleteWindow_call] else [])).
  { rewrite HW, calls_to_app. destruct b; reflexivity. }
  clearbody W setup. rewrite run_bind.
  pose proof (CreateSubjectTable_returns host W) as Hret.
  pose proof (emits_calls_to "cmds.showWindow" CreateSubjectTable host W HTs) as Hs1.
  pose proof (emits_calls_to "cmds.deleteUI" CreateSubjectTable host W HTd) as Hd1.
  destruct (HTd host W) as [evsT [HhT HallT]].
  destruct (CreateSubjectTable host W) as [[[] | e] W1]; cbn [fst snd] in *;
    [| discriminate].
  rewrite run_bind.
  pose proof (emits_calls_to "cmds.showWindow" PopulateSubjects host W1 HPs) as Hs2.
  pose proof (emits_calls_to "cmds.deleteUI" PopulateSubjects host W1 HPd) as Hd2.
  destruct (HPd host W1) as [evsP [HhP HallP]].
  destruct (PopulateSubjects host W1) as [[[] | e] W2]; cbn [fst snd] in *.
  - rewrite !run_bind_call_, run_bind_call, run_bind_call_, run_call_, !log_log.
    cbn [fst snd app]. split; [| split; [| split]].
    + intros _. rewrite history_log, last_app. reflexivity.
    + intros Hne. contradiction.
    + rewrite history_log, calls_to_app, Hd2, Hd1, HWd. cbn. now rewrite app_nil_r.
    + eexists. split.
      * rewrite history_log, HhP, HhT, HW.
        rewrite <- !app_assoc. cbn [app]. rewrite <- !app_assoc. cbn [app].
        reflexivity.
      * rewrite !calls_to_app, Hsetup, (calls_to_none _ _ HallT),
          (calls_to_none _ _ HallP). reflexivity.
  - split; [| split; [| split]].
    + discriminate.
    + intros _. now rewrite Hs2, Hs1, HWs.
    + now rewrite Hd2, Hd1, HWd.
    + eexists. split.
      * rewrite HhP, HhT, HW.
        rewrite <- !app_assoc. cbn [app]. rewrite <- !app_assoc. cbn [app].
        reflexivity.
      * rewrite !calls_to_app, Hsetup, (calls_to_none _ _ HallT),
          (calls_to_none _ _ HallP). reflexivity.
Qed.

(** On a host whose window exists and whose plugin has one subject, doIt
    queries the window, deletes it, creates it anew, and ends by showing
    it. *)
Example doIt_replaces_the_window :
  let w' := snd (MayaLiveLinkUI_doIt
                   (host_with_subjects (Some ["cube"]) (Some ["|cube"])
                      (Some ["Prop"]) (Some ["Root Only"]))
                   initial_world) in
  firstn 3 (history w')
    = [window_query WindowName; deleteWindow_call; createWindow_call] /\
  last (history w') = Some showWindow_call /\
  creations (history w') = firstn 1 table_header /\
  created_rows (history w') = ["ColumnLayoutRow_0"].
Proof. cbv zeta. repeat split. Qed.

(** ** One subject table *)

Lemma table_created_call e :
  table_created e = true -> is_call_to "cmds.rowColumnLayout" e = true.
Proof.
  destruct e as [fn [| [] []] kwargs | |]; cbn; try discriminate.
  destruct (String.eqb fn "cmds.rowColumnLayout"); [reflexivity | discriminate].
Qed.

Lemma table_deleted_call e :
  table_deleted e = true -> is_call_to "cmds.deleteUI" e = true.
Proof.
  destruct e as [fn [| [] []] kwargs | |]; cbn; try discriminate.
  destruct (String.eqb fn "cmds.deleteUI"); [reflexivity | discriminate].
Qed.

Lemma rows_touch_no_table evs :
  Forall (fun e => uses PopulateSubjects_calls e = true) evs ->
  creations evs = [] /\ deletions evs = [].
Proof.
  induction 1 as [| e evs He _ [IHc IHd]]; [split; reflexivity |].
  unfold creations, deletions in *. cbn [List.filter].
  destruct (table_created e) eqn:Ec.
  { apply table_created_call in Ec.
    rewrite (uses_no_call_to PopulateSubjects_calls "cmds.rowColumnLayout" e
               eq_refl He) in Ec. discriminate. }
  destruct (table_deleted e) eqn:Ed.
  { apply table_deleted_call in Ed.
    rewrite (uses_no_call_to PopulateSubjects_calls "cmds.deleteUI" e
               eq_refl He) in Ed. discriminate. }
  auto.
Qed.

Lemma creations_app h1 h2 : creations (h1 ++ h2) = creations h1 ++ creations h2.
Proof. apply List.filter_app. Qed.

Lemma deletions_app h1 h2 : deletions (h1 ++ h2) = deletions h1 ++ deletions h2.
Proof. apply List.filter_app. Qed.

Lemma CreateSubjectTable_counts host w b :
  window_exists host (history w ++ [window_query WindowName]) WindowName = b ->
  exists evs,
    CreateSubjectTable host w = (Ok tt, log w evs) /\
    length (creations evs) = (if b then 1 else 0) /\
    deletions evs = [].
Proof.
  intros Hb. unfold CreateSubjectTable.
  rewrite run_bind, run_window_exists, Hb. destruct b; cbn [negb].
  - rewrite !run_bind_call_, run_call_, !log_log. eexists.
    split; [reflexivity |]. split; reflexivity.
  - eexists. split; [reflexivity |]. split; reflexivity.
Qed.

Lemma RefreshSubjects_keeps_one_table host b w :
  (forall h, window_exists host h WindowName = b) ->
  keeps_one_table RefreshSubjects host w.
Proof.
  intros Hstable. unfold keeps_one_table, RefreshSubjects.
  rewrite run_bind, run_window_exists, Hstable. destruct b; cbn [when].
  - rewrite run_bind_call_, log_log. cbn [app]. rewrite run_bind.
    destruct (CreateSubjectTable_counts host
                (log w [window_query WindowName;
                        Call "cmds.deleteUI" [VStr "SubjectLayout"] []])
                true (Hstable _))
      as (evsT & HT & HTc & HTd).
    rewrite HT.
    destruct (emits_PopulateSubjects_calls host
                (log (log w [window_query WindowName;
                             Call "cmds.deleteUI" [VStr "SubjectLayout"] []]) evsT))
      as (evsP & HP & HPall).
    destruct (rows_touch_no_table evsP HPall) as [HPc HPd].
    exists (([window_query WindowName;
              Call "cmds.deleteUI" [VStr "SubjectLayout"] []] ++ evsT) ++ evsP).
    rewrite HP, !history_log, <- !app_assoc. split; [reflexivity |].
    rewrite !creations_app, !deletions_app, !length_app, HTc, HTd, HPc, HPd.
    cbn. lia.
  - exists [window_query WindowName]. repeat split. cbn. lia.
Qed.

Lemma keeps_one_table_after_call host w fn args (m : M unit) :
  is_call_to "cmds.rowColumnLayout" (Call fn args []) = false ->
  is_call_to "cmds.deleteUI" (Call fn args []) = false ->
  keeps_one_table m host (log w [Call fn args []]) ->
  keeps_one_table (call_ fn args [] ;; m) host w.
Proof.
  intros Hc Hd (evs & Hh & Heq & Hle). exists (Call fn args [] :: evs).
  rewrite run_bind_call_, Hh, history_log, <- app_assoc. split; [reflexivity |].
  unfold creations, deletions in *. cbn [List.filter].
  destruct (table_created (Call fn args [])) eqn:Ec;
    [apply table_created_call in Ec; congruence |].
  destruct (table_deleted (Call fn args [])) eqn:Ed;
    [apply table_deleted_call in Ed; congruence |].
  auto.
Qed.

(** X11. While the window keeps existing (or keeps not existing), each
    operation that rebuilds the subject table leaves exactly as many
    tables as it found: RefreshSubjects, OnRemoveSubject, AddSelection
    and AfterPluginUnloadCallback create the table SubjectLayout as many
    times as they delete it, and at most once, whether or not populating
    the rows succeeds. *)
Theorem subject_table_is_replaced host b w :
  (forall h, window_exists host h WindowName = b) ->
  keeps_one_table RefreshSubjects host w /\
  (forall SubjectPath, keeps_one_table (OnRemoveSubject SubjectPath) host w) /\
  keeps_one_table MayaLiveLinkUI_AddSelection host w /\
  (forall stringArray clientData,
     keeps_one_table (AfterPluginUnloadCallback stringArray clientData) host w).
Proof.
  intros Hstable. split; [| split; [| split]].
  - now apply (RefreshSubjects_keeps_one_table host b).
  - intros SubjectPath. unfold OnRemoveSubject.
    apply keeps_one_table_after_call; [reflexivity | reflexivity |].
    now apply (RefreshSubjects_keeps_one_table host b).
  - unfold MayaLiveLinkUI_AddSelection.
    apply keeps_one_table_after_call; [reflexivity | reflexivity |].
    now apply (RefreshSubjects_keeps_one_table host b).
  - intros stringArray clientData. unfold keeps_one_table.
    rewrite AfterPluginUnloadCallback_unfold.
    destruct (existsb _ stringArray).
    + rewrite run_bind. unfold ClearSubjects at 1.
      rewrite run_bind, run_window_exists, Hstable.
      destruct b; cbn [when].
      * rewrite run_call_, log_log. cbn [app].
        destruct (CreateSubjectTable_counts host
                    (log w [window_query WindowName;
                            Call "cmds.deleteUI" [VStr "SubjectLayout"] []])
                    true (Hstable _))
          as (evsT & HT & HTc & HTd).
        rewrite HT. cbn [snd].
        exists ([window_query WindowName;
                 Call "cmds.deleteUI" [VStr "SubjectLayout"] []] ++ evsT).
        rewrite !history_log, <- app_assoc. split; [reflexivity |].
        rewrite !creations_app, !deletions_app, !length_app, HTc, HTd. cbn. lia.
      * cbn [mret M_ret].
        destruct (CreateSubjectTable_counts host (log w [window_query WindowName])
                    false (Hstable _))
          as (evsT & HT & HTc & HTd).
        rewrite HT. cbn [snd]. exists ([window_query WindowName] ++ evsT).
        rewrite !history_log, <- app_assoc. split; [reflexivity |].
        rewrite !creations_app, !deletions_app, !length_app, HTc, HTd. cbn. lia.
    + exists []. cbn. rewrite app_nil_r. repeat split. lia.
Qed.

Lemma subject_table_is_replaced_witness :
  keeps_one_table RefreshSubjects
    (host_with_subjects (Some ["cube"]) (Some ["|cube"]) (Some ["Prop"])
       (Some ["Root Only"]))
    initial_world.
Proof.
  exact (proj1 (subject_table_is_replaced
                  (host_with_subjects (Some ["cube"]) (Some ["|cube"])
                     (Some ["Prop"]) (Some ["Root Only"]))
                  true initial_world (fun _ => eq_refl))).
Defined.

(** ** Collecting the commands *)

(** X12. When a name of the module does not evaluate,
    GetLiveLinkCommandsFromModule raises the error of the first such
    name: the names before it were evaluated and tested without error,
    and no list is returned. *)
Theorem GetLiveLinkCommandsFromModule_unbound eval good objs bad e rest :
  Forall2 (fun Item o => eval Item = Ok o) good objs ->
  eval bad = Raise e ->
  GetLiveLinkCommandsFromModule eval (good ++ bad :: rest) = Raise e.
Proof.
  intros Hgood Hbad. induction Hgood as [| Item o good objs Ho _ IH].
  - cbn [app GetLiveLinkCommandsFromModule]. now rewrite Hbad.
  - cbn [app GetLiveLinkCommandsFromModule]. rewrite Ho, IH.
    destruct (IsLiveLinkCommand_total o) as [b [Hb _]].
    unfold mbind, Result_bind. now rewrite Hb.
Qed.

Lemma GetLiveLinkCommandsFromModule_unbound_witness :
  GetLiveLinkCommandsFromModule (eval_in module_globals)
    (["MayaLiveLinkUI"] ++ "MayaLiveLinkPlugin" :: ["cmds"])
  = Raise (NameError "MayaLiveLinkPlugin").
Proof.
  apply (GetLiveLinkCommandsFromModule_unbound (eval_in module_globals)
           ["MayaLiveLinkUI"] [PyClass MayaLiveLinkUI] "MayaLiveLinkPlugin"
           (NameError "MayaLiveLinkPlugin") ["cmds"]).
  - repeat constructor.
  - reflexivity.
Defined.

(** X13. Being a command is inherited: a class that lists among its
    bases a class IsLiveLinkCommand accepts is accepted too, so commands
    derived from other commands are registered as well. *)
Theorem IsLiveLinkCommand_inherited c d :
  d ∈ __bases__ c ->
  IsLiveLinkCommand (PyClass d) = Ok true ->
  IsLiveLinkCommand (PyClass c) = Ok true.
Proof.
  intros Hbase Hd.
  destruct (IsLiveLinkCommand_total (PyClass d)) as [bd [Hbd Hiffd]].
  rewrite Hd in Hbd. injection Hbd as <-.
  destruct (proj1 Hiffd eq_refl) as [d' [[= <-] [Hsub Hne]]].
  destruct (IsLiveLinkCommand_total (PyClass c)) as [bc [Hbc Hiffc]].
  rewrite Hbc. f_equal. apply Hiffc. exists c. split; [reflexivity |].
  split; [now apply (Subclass_base c d) |].
  intros ->. cbn in Hbase. apply list_elem_of_singleton in Hbase. subst d.
  apply subclass_of_Subclass in Hsub. discriminate.
Qed.

Lemma IsLiveLinkCommand_inherited_witness :
  IsLiveLinkCommand
    (PyClass (MkClass "MayaLiveLinkRefreshAll" [MayaLiveLinkRefreshUI])) = Ok true.
Proof.
  apply (IsLiveLinkCommand_inherited
           (MkClass "MayaLiveLinkRefreshAll" [MayaLiveLinkRefreshUI])
           MayaLiveLinkRefreshUI).
  - apply list_elem_of_here.
  - reflexivity.
Defined.

(** ** The endpoints dialog never fails *)

Lemma layoutDialog_outcome U S host w :
  exists w2,
    layoutDialog U S host w = (Ok (Literal ""), w2) \/
    exists d, layoutDialog U S host w = (Ok (JsonDumps d), w2).
Proof.
  unfold layoutDialog. rewrite run_bind_call_.
  destruct (run_CreateUI U S host
              (log w [Call "cmds.layoutDialog" []
                        [("ui", VCallable (Closure_CreateUI U S));
                         ("title", VStr "Set Network Endpoints")]]))
    as [fields [evs Hui]].
  rewrite (run_bind_ok _ _ _ _ _ _ Hui), run_bind_answer.
  destruct (dialog_button host _).
  - eexists. left. reflexivity.
  - rewrite run_OnOk. eexists. right. eexists. reflexivity.
Qed.

(** X14. Whatever the user types and whichever button ends the dialog,
    ShowNetworkEndpointsDialog returns normally and issues at most three
    setter commands. *)
Theorem ShowNetworkEndpointsDialog_returns host w :
  fst (MayaLiveLinkUI_ShowNetworkEndpointsDialog host w) = Ok tt /\
  length (setters (history (snd (MayaLiveLinkUI_ShowNetworkEndpointsDialog host w))))
  <= length (setters (history w)) + 3.
Proof.
  unfold MayaLiveLinkUI_ShowNetworkEndpointsDialog.
  rewrite !run_bind_call. fold unicast_query static_query.
  set (U := unicastEndpoint host _). set (S := staticEndpoints host _).
  set (W := log (log w [unicast_query]) [static_query]).
  destruct (emits_layoutDialog U S host W) as [evs [Hh Hall]].
  assert (HW : setters (history W) = setters (history w)).
  { subst W. rewrite !history_log, !setters_app. cbn. now rewrite !app_nil_r. }
  destruct (layoutDialog_outcome U S host W) as [w2 [Hrun | [d Hrun]]];
    rewrite Hrun in Hh; cbn [snd] in Hh;
    rewrite (run_bind_ok _ _ _ _ _ _ Hrun); cbn [truthy PyStr.is_empty negb when].
  - split; [reflexivity |]. cbn [snd mret M_ret].
    rewrite Hh, setters_app, (setters_none _ Hall), app_nil_r, HW. lia.
  - rewrite run_bind. cbn [json_loads mret M_ret]. rewrite run_ApplyEndpoints.
    split; [reflexivity |]. cbn [snd].
    rewrite history_log, setters_app, Hh, setters_app, (setters_none _ Hall),
      app_nil_r, HW, setters_endpoint_setters, length_app.
    unfold endpoint_setters.
    destruct (decide (unicast d = U)), (set_difference S (static d)),
      (set_difference (static d) S); cbn; lia.
Qed.
